(** * The dual-model AI service of the EPIC FHIR platform

    A shallow embedding of [backend/src/services/aiService.js]: the
    [AIService] class with [getDualAnalysis], [getOpenAIResponse],
    [getClaudeResponse] and [selectBestResponse], the analysis methods
    built on them, [generateFineTuningData] and [batchProcess], together
    with the part of the JavaScript run time these methods rely on
    (truthiness and [||], property reads, template literals, [JSON.parse],
    [JSON.stringify], promise settlement).

    Outbound calls to the two SDK clients are effects: a computation runs
    over a [Trace] that records every request handed to either client and
    every logger call, and it ends either fulfilled with a value or rejected
    with an error, as an [async] method does. *)

From Stdlib Require Import String Ascii List Bool ZArith QArith Lia.
Import ListNotations.

Local Open Scope string_scope.

(** ** JavaScript values *)

(** Numbers are kept as exact rationals: the literals of the source
    ([0.7], [0.3], [2000]) and the numbers of a JSON text are decimal
    fractions, and the service only tests numbers for truthiness and hands
    them on.  NaN and the infinities are not JSON values and no literal of
    the source denotes them. *)
#[warnings="-register-all"]
Inductive JSValue : Type :=
| JUndefined
| JNull
| JBool (b : bool)
| JNum (q : Q)
| JStr (s : string)
| JArr (elements : list JSValue)
| JObj (properties : list (string * JSValue)).

(** ToBoolean.  [undefined], [null], [false], [0] and the empty string are
    falsy; every array and every object is truthy. *)
Definition truthy (v : JSValue) : bool :=
  match v with
  | JUndefined | JNull => false
  | JBool b => b
  | JNum q => negb (Z.eqb (Qnum q) 0)
  | JStr s => negb (String.eqb s EmptyString)
  | JArr _ | JObj _ => true
  end.

(** [a || b] *)
Definition js_or (a b : JSValue) : JSValue :=
  if truthy a then a else b.

(** [v === 'lit'] for a string literal on the right. *)
Definition strict_eq_str (v : JSValue) (lit : string) : bool :=
  match v with
  | JStr s => String.eqb s lit
  | _ => false
  end.

(** Own property lookup in an object literal or a parsed object. *)
Fixpoint lookup (k : string) (props : list (string * JSValue)) : option JSValue :=
  match props with
  | [] => None
  | (k', v) :: rest => if String.eqb k' k then Some v else lookup k rest
  end.

(** [obj[k] = v] on the property list: an existing key keeps its place and
    takes the new value, a new key goes last. *)
Fixpoint set_prop (k : string) (v : JSValue) (props : list (string * JSValue))
  : list (string * JSValue) :=
  match props with
  | [] => [(k, v)]
  | (k', v') :: rest =>
      if String.eqb k' k then (k, v) :: rest else (k', v') :: set_prop k v rest
  end.

(** The value read by [v.k] when [v] is neither [undefined] nor [null].
    The service reads only [selected], [reasoning] and [scores], names that
    no built-in prototype defines, so the read of a primitive or of an array
    gives [undefined]. *)
Definition prop (v : JSValue) (k : string) : JSValue :=
  match v with
  | JObj props =>
      match lookup k props with
      | Some x => x
      | None => JUndefined
      end
  | _ => JUndefined
  end.

(** Thrown values.  Everything the SDK clients and the run time throw here
    is an [Error] instance, which carries a message. *)
Module JSError.
Record t : Type := mk { name : string; message : string }.
End JSError.

Definition TypeError (msg : string) : JSError.t := JSError.mk "TypeError" msg.
Definition SyntaxError (msg : string) : JSError.t := JSError.mk "SyntaxError" msg.

(** How a promise settles (the [status] of [Promise.allSettled]). *)
Inductive Outcome (A : Type) : Type :=
| Fulfilled (value : A)
| Rejected (reason : JSError.t).
Arguments Fulfilled {A} value.
Arguments Rejected {A} reason.

(** [v.k] as an expression: reading a property of [undefined] or [null]
    throws a TypeError. *)
Definition get_prop (v : JSValue) (k : string) : Outcome JSValue :=
  match v with
  | JUndefined =>
      Rejected (TypeError ("Cannot read properties of undefined (reading '" ++ k ++ "')"))
  | JNull =>
      Rejected (TypeError ("Cannot read properties of null (reading '" ++ k ++ "')"))
  | _ => Fulfilled (prop v k)
  end.

(** ** JSON.parse *)

Module JSON.

Local Open Scope char_scope.

Definition is_ws (c : ascii) : bool :=
  match c with
  | " " | "009" | "010" | "013" => true
  | _ => false
  end.

Fixpoint skip_ws (s : string) : string :=
  match s with
  | String c rest => if is_ws c then skip_ws rest else s
  | EmptyString => s
  end.

Definition digit_of (c : ascii) : option N :=
  let n := N_of_ascii c in
  if ((48 <=? n) && (n <=? 57))%N then Some (n - 48)%N else None.

Definition hex_of (c : ascii) : option N :=
  let n := N_of_ascii c in
  if ((48 <=? n) && (n <=? 57))%N then Some (n - 48)%N
  else if ((65 <=? n) && (n <=? 70))%N then Some (n - 55)%N
  else if ((97 <=? n) && (n <=? 102))%N then Some (n - 87)%N
  else None.

(** The longest run of decimal digits at the head of [s]: its value read
    after [acc], how many digits it has, and the rest. *)
Fixpoint take_digits (acc : N) (count : nat) (s : string) : N * nat * string :=
  match s with
  | String c rest =>
      match digit_of c with
      | Some d => take_digits (acc * 10 + d) (S count) rest
      | None => (acc, count, s)
      end
  | EmptyString => (acc, count, s)
  end.

(** The code unit of a [\uXXXX] escape as UTF-8 bytes. *)
Definition utf8 (cp : N) : string :=
  if (cp <? 128)%N then String (ascii_of_N cp) EmptyString
  else if (cp <? 2048)%N then
    String (ascii_of_N (192 + cp / 64))
      (String (ascii_of_N (128 + cp mod 64)) EmptyString)
  else
    String (ascii_of_N (224 + cp / 4096))
      (String (ascii_of_N (128 + (cp / 64) mod 64))
         (String (ascii_of_N (128 + cp mod 64)) EmptyString)).

(** The characters of a string literal after its opening quote, up to the
    closing quote, with the escapes resolved; [None] on a raw control
    character, a bad escape or a missing closing quote. *)
Fixpoint string_body (s : string) : option (string * string) :=
  match s with
  | EmptyString => None
  | String "034" rest => Some (EmptyString, rest)
  | String "\" (String "u" (String a (String b (String c (String d rest))))) =>
      match hex_of a, hex_of b, hex_of c, hex_of d, string_body rest with
      | Some x, Some y, Some z, Some w, Some (body, rest') =>
          Some (append (utf8 (((x * 16 + y) * 16 + z) * 16 + w)) body, rest')
      | _, _, _, _, _ => None
      end
  | String "\" (String e rest) =>
      let unescaped :=
        match e with
        | "034" => Some "034"
        | "\" => Some "\"
        | "/" => Some "/"
        | "b" => Some "008"
        | "f" => Some "012"
        | "n" => Some "010"
        | "r" => Some "013"
        | "t" => Some "009"
        | _ => None
        end in
      match unescaped, string_body rest with
      | Some c, Some (body, rest') => Some (String c body, rest')
      | _, _ => None
      end
  | String c rest =>
      if (N_of_ascii c <? 32)%N then None
      else
        match string_body rest with
        | Some (body, rest') => Some (String c body, rest')
        | None => None
        end
  end.

(** [m * 10 ^ e] as a rational. *)
Definition scale10 (m : Z) (e : Z) : Q :=
  if (0 <=? e)%Z then inject_Z (m * 10 ^ e)
  else Qred (Qmake m (Z.to_pos (10 ^ (- e)))).

(** An optional fraction after the integer part [int]: the digits read
    on, and how many fraction digits there were. *)
Definition fraction (int : N) (s : string) : option (N * nat * string) :=
  match s with
  | String "." s' =>
      let '(m, frac_digits, rest) := take_digits int 0 s' in
      if Nat.eqb frac_digits 0 then None else Some (m, frac_digits, rest)
  | _ => Some (int, O, s)
  end.

(** An optional sign of the exponent. *)
Definition sign (s : string) : bool * string :=
  match s with
  | String "-" rest => (true, rest)
  | String "+" rest => (false, rest)
  | _ => (false, s)
  end.

(** An optional exponent. *)
Definition exponent (s : string) : option (Z * string) :=
  match s with
  | String c s' =>
      if Ascii.eqb c "e" || Ascii.eqb c "E" then
        let '(negative, s'') := sign s' in
        let '(e, exp_digits, rest) := take_digits 0 0 s'' in
        if Nat.eqb exp_digits 0 then None
        else Some ((if negative then - Z.of_N e else Z.of_N e)%Z, rest)
      else Some (0%Z, s)
  | EmptyString => Some (0%Z, s)
  end.

(** A number after its optional sign: integer part without a leading
    zero, optional fraction, optional exponent. *)
Definition number_body (negative : bool) (s : string) : option (JSValue * string) :=
  let '(int, int_digits, s1) := take_digits 0 0 s in
  let leading_zero :=
    match s with
    | String "0" _ => Nat.ltb 1 int_digits
    | _ => false
    end in
  if Nat.eqb int_digits 0 || leading_zero then None
  else
    match fraction int s1 with
    | None => None
    | Some (m, frac_digits, s2) =>
        match exponent s2 with
        | None => None
        | Some (e, rest) =>
            let mantissa := (if negative then - Z.of_N m else Z.of_N m)%Z in
            Some (JNum (scale10 mantissa (e - Z.of_nat frac_digits)), rest)
        end
    end.

Fixpoint strip_prefix (p s : string) : option string :=
  match p, s with
  | EmptyString, _ => Some s
  | String a p', String b s' => if Ascii.eqb a b then strip_prefix p' s' else None
  | String _ _, EmptyString => None
  end.

(** Recursive descent over the text, one function per nonterminal.  Each
    is written over the parsers it calls, and [value], [elements] and
    [members] tie them together. *)
Definition Parser : Type := string -> option (JSValue * string).

(** A value: a literal, a string, a number, an array or an object. *)
Definition value_of (elements : list JSValue -> Parser)
    (members : list (string * JSValue) -> Parser) : Parser :=
  fun s =>
    match skip_ws s with
    | EmptyString => None
    | String c rest =>
        match c with
        | "n" => option_map (pair JNull) (strip_prefix "ull" rest)
        | "t" => option_map (pair (JBool true)) (strip_prefix "rue" rest)
        | "f" => option_map (pair (JBool false)) (strip_prefix "alse" rest)
        | "034" =>
            match string_body rest with
            | Some (str, rest') => Some (JStr str, rest')
            | None => None
            end
        | "-" => number_body true rest
        | "[" =>
            match skip_ws rest with
            | String "]" rest' => Some (JArr [], rest')
            | _ => elements [] rest
            end
        | "{" =>
            match skip_ws rest with
            | String "}" rest' => Some (JObj [], rest')
            | _ => members [] rest
            end
        | _ => number_body false (String c rest)
        end
    end.

(** The elements of a non-empty array, up to its closing bracket; [acc]
    holds the ones read so far, last first. *)
Definition elements_of (value : Parser) (elements : list JSValue -> Parser)
    (acc : list JSValue) : Parser :=
  fun s =>
    match value s with
    | None => None
    | Some (v, s1) =>
        match skip_ws s1 with
        | String "," s2 => elements (v :: acc) s2
        | String "]" s2 => Some (JArr (rev (v :: acc)), s2)
        | _ => None
        end
    end.

(** The members of a non-empty object, up to its closing brace. *)
Definition members_of (value : Parser) (members : list (string * JSValue) -> Parser)
    (acc : list (string * JSValue)) : Parser :=
  fun s =>
    match skip_ws s with
    | String "034" s1 =>
        match string_body s1 with
        | None => None
        | Some (key, s2) =>
            match skip_ws s2 with
            | String ":" s3 =>
                match value s3 with
                | None => None
                | Some (v, s4) =>
                    match skip_ws s4 with
                    | String "," s5 => members (set_prop key v acc) s5
                    | String "}" s5 => Some (JObj (set_prop key v acc), s5)
                    | _ => None
                    end
                end
            | _ => None
            end
        end
    | _ => None
    end.

(** A parser that, when it succeeds, returns a value other than
    [undefined] and has consumed at least one character. *)
Definition well_behaved (p : Parser) : Prop :=
  forall s v r, p s = Some (v, r) -> v <> JUndefined /\ (String.length r < String.length s)%nat.

(** [fuel] bounds the depth of the calls.  A call is made on a shorter
    text, or is followed by one that is, so twice the length of the text
    is enough: see [JSONFacts.fuel_is_enough]. *)
Fixpoint value (fuel : nat) (s : string) : option (JSValue * string) :=
  match fuel with
  | O => None
  | S fuel' => value_of (elements fuel') (members fuel') s
  end

with elements (fuel : nat) (acc : list JSValue) (s : string)
  : option (JSValue * string) :=
  match fuel with
  | O => None
  | S fuel' => elements_of (value fuel') (elements fuel') acc s
  end

with members (fuel : nat) (acc : list (string * JSValue)) (s : string)
  : option (JSValue * string) :=
  match fuel with
  | O => None
  | S fuel' => members_of (value fuel') (members fuel') acc s
  end.

(** [JSON.parse(text)]: [None] stands for the SyntaxError it throws. *)
Definition parse (text : string) : option JSValue :=
  match value (2 * String.length text + 4) text with
  | Some (v, rest) =>
      match skip_ws rest with
      | EmptyString => Some v
      | String _ _ => None
      end
  | None => None
  end.

End JSON.


(** ** Effects: outbound requests, the logger, rejection *)

Inductive LogEntry : Type :=
| LogError (text detail : string)
| LogWarn (text detail : string).

(** What a run has done so far: the requests handed to
    [openai.chat.completions.create] and to [anthropic.messages.create], in
    the order they were issued, and the logger calls.  The two calls of
    [getDualAnalysis] are in flight together; each client sees only its own
    requests, so their interleaving shows in nothing but the order of the
    logger entries, which no method reads. *)
Record Trace : Type := mkTrace {
  openai_requests : list JSValue;
  anthropic_requests : list JSValue;
  logged : list LogEntry
}.

Definition empty_trace : Trace := mkTrace [] [] [].

(** An [async] computation: it runs over the trace and settles. *)
Definition Async (A : Type) : Type := Trace -> Outcome A * Trace.

Definition ret {A} (a : A) : Async A := fun t => (Fulfilled a, t).

Definition throw {A} (e : JSError.t) : Async A := fun t => (Rejected e, t).

Definition bind {A B} (m : Async A) (k : A -> Async B) : Async B :=
  fun t =>
    match m t with
    | (Fulfilled a, t') => k a t'
    | (Rejected e, t') => (Rejected e, t')
    end.

(** [try { body } catch (error) { handler }] *)
Definition try_catch {A} (body : Async A) (handler : JSError.t -> Async A) : Async A :=
  fun t =>
    match body t with
    | (Fulfilled a, t') => (Fulfilled a, t')
    | (Rejected e, t') => handler e t'
    end.

(** [await Promise.allSettled([p, q])]: both are run whatever the other
    does, and the join itself never rejects. *)
Definition allSettled {A B} (p : Async A) (q : Async B) : Async (Outcome A * Outcome B) :=
  fun t =>
    let (a, t1) := p t in
    let (b, t2) := q t1 in
    (Fulfilled (a, b), t2).

Definition settle {A} (o : Outcome A) : Async A := fun t => (o, t).

Declare Scope async_scope.
Delimit Scope async_scope with async.
Notation "x <- m ;; k" := (bind m (fun x => k))
  (at level 100, m at next level, right associativity) : async_scope.
Notation "m ;; k" := (bind m (fun _ => k))
  (at level 100, right associativity) : async_scope.
Local Open Scope async_scope.

Definition logger_error (text detail : string) : Async unit :=
  fun t => (Fulfilled tt,
            mkTrace (openai_requests t) (anthropic_requests t)
                    (logged t ++ [LogError text detail])).

Definition logger_warn (text detail : string) : Async unit :=
  fun t => (Fulfilled tt,
            mkTrace (openai_requests t) (anthropic_requests t)
                    (logged t ++ [LogWarn text detail])).

(** [JSON.parse(text)] as an expression.  The engine's message depends on
    the text; the service only logs it. *)
Definition JSON_parse (text : string) : Async JSValue :=
  match JSON.parse text with
  | Some v => ret v
  | None => throw (SyntaxError ("Unexpected token in JSON: " ++ text))
  end.

(** ** The SDK clients *)

(** The part of a chat completion the service reads. *)
Module OpenAI.
(** [content] is a string or [null]. *)
Record Message : Type := { content : option string }.
Record Choice : Type := { message : Message; finish_reason : JSValue }.
Record ChatCompletion : Type := { choices : list Choice; usage : JSValue }.
(** [chat.completions.create]: given the requests made before and the
    request, how the call settles. *)
Definition Client : Type := list JSValue -> JSValue -> Outcome ChatCompletion.
End OpenAI.

Module Anthropic.
Record TextBlock : Type := { text : string }.
Record Usage : Type := { input_tokens : JSValue; output_tokens : JSValue }.
Record Message : Type := {
  content : list TextBlock;
  model : JSValue;
  usage : Usage;
  stop_reason : JSValue
}.
(** [messages.create] *)
Definition Client : Type := list JSValue -> JSValue -> Outcome Message.
End Anthropic.

(** ** The values of the service *)

(** The [options] argument; an absent key reads as [undefined]. *)
Module Options.
Record t : Type := {
  temperature : JSValue;
  maxTokens : JSValue;
  model : JSValue;
  selectBest : JSValue;
  selectionCriteria : option string
}.
(** [{}] *)
Definition empty : t :=
  {| temperature := JUndefined; maxTokens := JUndefined; model := JUndefined;
     selectBest := JUndefined; selectionCriteria := None |}.
End Options.

(** What [getOpenAIResponse] returns. *)
Module OpenAIResult.
Record t : Type := {
  content : option string;
  model : JSValue;
  usage : JSValue;
  finishReason : JSValue
}.
End OpenAIResult.

(** What [getClaudeResponse] returns. *)
Module ClaudeResult.
Record t : Type := {
  content : option string;
  model : JSValue;
  usage : Anthropic.Usage;
  stopReason : JSValue
}.
End ClaudeResult.

(** What [selectBestResponse] returns; [scores = None] is an object
    without a [scores] key, [Some JUndefined] one whose key holds
    [undefined]. *)
Module SelectionOutcome.
Record t : Type := {
  winner : string;
  content : option string;
  reasoning : JSValue;
  scores : option JSValue
}.
End SelectionOutcome.

(** [results.errors]: a key is present only for a backend that failed. *)
Module Errors.
Record t : Type := { openai : option string; claude : option string }.
End Errors.

(** What [getDualAnalysis] returns; [None] in a result slot is [null],
    [None] in [selected] is the absent key. *)
Module Results.
Record t : Type := {
  openai : option OpenAIResult.t;
  claude : option ClaudeResult.t;
  errors : Errors.t;
  selected : option SelectionOutcome.t
}.
End Results.

Module AIService.
Record t : Type := {
  openai : OpenAI.Client;
  anthropic : Anthropic.Client;
  fineTunedModel : JSValue
}.
End AIService.

(** The constructor: [process.env.OPENAI_FINE_TUNED_MODEL || null]. *)
Definition new_AIService (openai : OpenAI.Client) (anthropic : Anthropic.Client)
    (OPENAI_FINE_TUNED_MODEL : option string) : AIService.t :=
  {| AIService.openai := openai;
     AIService.anthropic := anthropic;
     AIService.fineTunedModel :=
       js_or (match OPENAI_FINE_TUNED_MODEL with
              | Some s => JStr s
              | None => JUndefined
              end) JNull |}.

(** A string or [null] inside a template literal, or as the argument of
    [JSON.parse]. *)
Definition to_text (c : option string) : string :=
  match c with
  | Some s => s
  | None => "null"
  end.

(** [criteria || 'literal'] *)
Definition or_literal (c : option string) (literal : string) : string :=
  match c with
  | Some s => if String.eqb s EmptyString then literal else s
  | None => literal
  end.

(** The text with every apostrophe turned into a double quote. *)
Fixpoint double_quoted (s : string) : string :=
  match s with
  | EmptyString => EmptyString
  | String c rest =>
      String (if Ascii.eqb c "'"%char then "034"%char else c) (double_quoted rest)
  end.

(** ** The methods of [AIService] *)

Section Methods.

Variable this : AIService.t.

(** [await this.openai.chat.completions.create(request)] *)
Definition chat_completions_create (request : JSValue) : Async OpenAI.ChatCompletion :=
  fun t =>
    (AIService.openai this (openai_requests t) request,
     mkTrace (openai_requests t ++ [request]) (anthropic_requests t) (logged t)).

(** [await this.anthropic.messages.create(request)] *)
Definition messages_create (request : JSValue) : Async Anthropic.Message :=
  fun t =>
    (AIService.anthropic this (anthropic_requests t) request,
     mkTrace (openai_requests t) (anthropic_requests t ++ [request]) (logged t)).

(** [list[0].key]: the head of the list, or the TypeError of reading
    [key] of [undefined]. *)
Definition first_then {A} (l : list A) (key : string) : Async A :=
  match l with
  | x :: _ => ret x
  | [] => throw (TypeError ("Cannot read properties of undefined (reading '" ++ key ++ "')"))
  end.

Definition getOpenAIResponse (prompt systemPrompt : string) (options : Options.t)
  : Async OpenAIResult.t :=
  try_catch
    (let model :=
       js_or (js_or (AIService.fineTunedModel this) (Options.model options))
             (JStr "gpt-4-turbo-preview") in
     response <- chat_completions_create
                   (JObj [ ("model", model);
                           ("messages",
                            JArr [ JObj [("role", JStr "system");
                                         ("content", JStr systemPrompt)];
                                   JObj [("role", JStr "user");
                                         ("content", JStr prompt)] ]);
                           ("temperature",
                            js_or (Options.temperature options) (JNum (7 # 10)));
                           ("max_tokens",
                            js_or (Options.maxTokens options) (JNum 2000)) ]) ;;
     choice <- first_then (OpenAI.choices response) "message" ;;
     ret {| OpenAIResult.content := OpenAI.content (OpenAI.message choice);
            OpenAIResult.model := model;
            OpenAIResult.usage := OpenAI.usage response;
            OpenAIResult.finishReason := OpenAI.finish_reason choice |})
    (fun error =>
       logger_error "OpenAI API error:" (JSError.message error) ;;
       throw error).

Definition getClaudeResponse (prompt systemPrompt : string) (options : Options.t)
  : Async ClaudeResult.t :=
  try_catch
    (response <- messages_create
                   (JObj [ ("model",
                            js_or (Options.model options)
                                  (JStr "claude-3-5-sonnet-20241022"));
                           ("max_tokens",
                            js_or (Options.maxTokens options) (JNum 2000));
                           ("system", JStr systemPrompt);
                           ("messages",
                            JArr [ JObj [("role", JStr "user");
                                         ("content", JStr prompt)] ]) ]) ;;
     block <- first_then (Anthropic.content response) "text" ;;
     ret {| ClaudeResult.content := Some (Anthropic.text block);
            ClaudeResult.model := Anthropic.model response;
            ClaudeResult.usage :=
              {| Anthropic.input_tokens := Anthropic.input_tokens (Anthropic.usage response);
                 Anthropic.output_tokens := Anthropic.output_tokens (Anthropic.usage response) |};
            ClaudeResult.stopReason := Anthropic.stop_reason response |})
    (fun error =>
       logger_error "Claude API error:" (JSError.message error) ;;
       throw error).

Definition default_criteria : string := "accuracy, helpfulness, clarity, completeness".

(** The template literal [selectionPrompt]. *)
Definition selectionPrompt (openaiResult : OpenAIResult.t) (claudeResult : ClaudeResult.t)
    (originalPrompt : string) (criteria : option string) : string :=
  "
You are an expert evaluator. Compare these two AI responses and select the better one.

Original Prompt: " ++ originalPrompt ++ "

Response A (OpenAI):
" ++ to_text (OpenAIResult.content openaiResult) ++ "

Response B (Claude):
" ++ to_text (ClaudeResult.content claudeResult) ++ "

Evaluation Criteria: " ++ or_literal criteria default_criteria ++ double_quoted "

Respond with JSON only:
{
  'selected': 'A' or 'B',
  'reasoning': 'brief explanation',
  'scores': {
    'A': { 'accuracy': 1-10, 'helpfulness': 1-10, 'clarity': 1-10 },
    'B': { 'accuracy': 1-10, 'helpfulness': 1-10, 'clarity': 1-10 }
  }
}".

Definition evaluator_instruction : string :=
  "You are an impartial AI evaluator. Respond only with valid JSON.".

(** [{ temperature: 0.3 }] *)
Definition evaluation_options : Options.t :=
  {| Options.temperature := JNum (3 # 10);
     Options.maxTokens := JUndefined;
     Options.model := JUndefined;
     Options.selectBest := JUndefined;
     Options.selectionCriteria := None |}.

Definition selectBestResponse (openaiResult : OpenAIResult.t) (claudeResult : ClaudeResult.t)
    (originalPrompt : string) (criteria : option string) : Async SelectionOutcome.t :=
  try_catch
    (evaluation <- getOpenAIResponse
                     (selectionPrompt openaiResult claudeResult originalPrompt criteria)
                     evaluator_instruction evaluation_options ;;
     parsed <- JSON_parse (to_text (OpenAIResult.content evaluation)) ;;
     selected <- settle (get_prop parsed "selected") ;;
     selected' <- settle (get_prop parsed "selected") ;;
     reasoning <- settle (get_prop parsed "reasoning") ;;
     scores <- settle (get_prop parsed "scores") ;;
     ret {| SelectionOutcome.winner :=
              if strict_eq_str selected "A" then "openai" else "claude";
            SelectionOutcome.content :=
              if strict_eq_str selected' "A"
              then OpenAIResult.content openaiResult
              else ClaudeResult.content claudeResult;
            SelectionOutcome.reasoning := reasoning;
            SelectionOutcome.scores := Some scores |})
    (fun error =>
       logger_warn "Response selection failed, defaulting to Claude:"
                   (JSError.message error) ;;
       ret {| SelectionOutcome.winner := "claude";
              SelectionOutcome.content := ClaudeResult.content claudeResult;
              SelectionOutcome.reasoning := JStr "Default selection due to evaluation error";
              SelectionOutcome.scores := None |}).

(** [status === 'fulfilled' ? value : null] *)
Definition value_or_null {A} (o : Outcome A) : option A :=
  match o with
  | Fulfilled v => Some v
  | Rejected _ => None
  end.

(** [reason.message] of a rejected entry, for the key of [results.errors]. *)
Definition reason_message {A} (o : Outcome A) : option string :=
  match o with
  | Fulfilled _ => None
  | Rejected reason => Some (JSError.message reason)
  end.

Definition getDualAnalysis (prompt systemPrompt : string) (options : Options.t)
  : Async Results.t :=
  settled <- allSettled (getOpenAIResponse prompt systemPrompt options)
                        (getClaudeResponse prompt systemPrompt options) ;;
  let (openaiResponse, claudeResponse) := settled in
  let results :=
    {| Results.openai := value_or_null openaiResponse;
       Results.claude := value_or_null claudeResponse;
       Results.errors :=
         {| Errors.openai := reason_message openaiResponse;
            Errors.claude := reason_message claudeResponse |};
       Results.selected := None |} in
  match truthy (Options.selectBest options), Results.openai results, Results.claude results with
  | true, Some openaiResult, Some claudeResult =>
      selected <- selectBestResponse openaiResult claudeResult prompt
                                     (Options.selectionCriteria options) ;;
      ret {| Results.openai := Results.openai results;
             Results.claude := Results.claude results;
             Results.errors := Results.errors results;
             Results.selected := Some selected |}
  | _, _, _ => ret results
  end.

End Methods.

(** ** Names for what the methods build *)

(** The request [getOpenAIResponse] hands to [chat.completions.create]. *)
Definition openai_request (this : AIService.t) (prompt systemPrompt : string)
    (options : Options.t) : JSValue :=
  JObj [ ("model",
          js_or (js_or (AIService.fineTunedModel this) (Options.model options))
                (JStr "gpt-4-turbo-preview"));
         ("messages",
          JArr [ JObj [("role", JStr "system"); ("content", JStr systemPrompt)];
                 JObj [("role", JStr "user"); ("content", JStr prompt)] ]);
         ("temperature", js_or (Options.temperature options) (JNum (7 # 10)));
         ("max_tokens", js_or (Options.maxTokens options) (JNum 2000)) ].

(** The request [getClaudeResponse] hands to [messages.create]. *)
Definition claude_request (prompt systemPrompt : string) (options : Options.t) : JSValue :=
  JObj [ ("model", js_or (Options.model options) (JStr "claude-3-5-sonnet-20241022"));
         ("max_tokens", js_or (Options.maxTokens options) (JNum 2000));
         ("system", JStr systemPrompt);
         ("messages", JArr [ JObj [("role", JStr "user"); ("content", JStr prompt)] ]) ].

(** The object [selectBestResponse] returns from its [catch] block. *)
Definition default_selection (claudeResult : ClaudeResult.t) : SelectionOutcome.t :=
  {| SelectionOutcome.winner := "claude";
     SelectionOutcome.content := ClaudeResult.content claudeResult;
     SelectionOutcome.reasoning := JStr "Default selection due to evaluation error";
     SelectionOutcome.scores := None |}.

(** The value under [key] in a request object. *)
Definition request_field (request : JSValue) (key : string) : option JSValue :=
  match request with
  | JObj props => lookup key props
  | _ => None
  end.

(** [part] occurs in [text]. *)
Definition embeds (text part : string) : Prop :=
  exists before after, text = before ++ part ++ after.

(** The evaluation call of [selectBestResponse]. *)
Definition evaluation_call (this : AIService.t) (openaiResult : OpenAIResult.t)
    (claudeResult : ClaudeResult.t) (originalPrompt : string) (criteria : option string)
  : Async OpenAIResult.t :=
  getOpenAIResponse this
    (selectionPrompt openaiResult claudeResult originalPrompt criteria)
    evaluator_instruction evaluation_options.

(** The object the [try] block of [selectBestResponse] returns for a parsed
    reply whose properties can be read. *)
Definition parsed_selection (openaiResult : OpenAIResult.t) (claudeResult : ClaudeResult.t)
    (parsed : JSValue) : SelectionOutcome.t :=
  {| SelectionOutcome.winner :=
       if strict_eq_str (prop parsed "selected") "A" then "openai" else "claude";
     SelectionOutcome.content :=
       if strict_eq_str (prop parsed "selected") "A"
       then OpenAIResult.content openaiResult
       else ClaudeResult.content claudeResult;
     SelectionOutcome.reasoning := prop parsed "reasoning";
     SelectionOutcome.scores := Some (prop parsed "scores") |}.

(** The trace after the [logger.warn] of the [catch] block. *)
Definition warned (error : JSError.t) (t : Trace) : Trace :=
  mkTrace (openai_requests t) (anthropic_requests t)
          (logged t ++ [LogWarn "Response selection failed, defaulting to Claude:"
                                (JSError.message error)]).

(** The evaluation call of [selectBestResponse] cannot be used: it rejects,
    or the text it returns is not JSON. *)
Definition judge_unusable (this : AIService.t) (openaiResult : OpenAIResult.t)
    (claudeResult : ClaudeResult.t) (originalPrompt : string) (criteria : option string)
    (t : Trace) : Prop :=
  match fst (evaluation_call this openaiResult claudeResult originalPrompt criteria t) with
  | Rejected _ => True
  | Fulfilled evaluation => JSON.parse (to_text (OpenAIResult.content evaluation)) = None
  end.

(** ** JSON.stringify *)

Module JSONStringify.

Local Open Scope char_scope.

Definition hex_digit (n : N) : ascii :=
  if (n <? 10)%N then ascii_of_N (48 + n) else ascii_of_N (87 + n).

(** QuoteJSONString, one character: the quote, the backslash and the
    control characters are escaped, the latter by their short form where
    there is one and as four lower-case hex digits otherwise; every other
    character stands for itself. *)
Definition escape_char (c : ascii) : string :=
  match c with
  | "034" => String "\" (String "034" EmptyString)
  | "\" => String "\" (String "\" EmptyString)
  | "008" => String "\" (String "b" EmptyString)
  | "012" => String "\" (String "f" EmptyString)
  | "010" => String "\" (String "n" EmptyString)
  | "013" => String "\" (String "r" EmptyString)
  | "009" => String "\" (String "t" EmptyString)
  | _ =>
      if (N_of_ascii c <? 32)%N then
        String "\" (String "u" (String "0" (String "0"
          (String (hex_digit (N_of_ascii c / 16))
             (String (hex_digit (N_of_ascii c mod 16)) EmptyString)))))
      else String c EmptyString
  end.

Fixpoint escape (s : string) : string :=
  match s with
  | EmptyString => EmptyString
  | String c rest => append (escape_char c) (escape rest)
  end.

Definition quote (s : string) : string :=
  String "034" (append (escape s) (String "034" EmptyString)).

(** [quote s] followed by [rest]. *)
Definition quoted_then (s rest : string) : string :=
  String "034" (append (escape s) (String "034" rest)).

(** [parts.join(separator)] *)
Fixpoint join (separator : string) (parts : list string) : string :=
  match parts with
  | [] => EmptyString
  | [part] => part
  | part :: rest => append part (append separator (join separator rest))
  end.

Definition newline : string := String "010" EmptyString.

(** The text of an array or an object from the texts of its parts: the
    two brackets alone when there is no part; the parts separated by
    commas when there is no gap; otherwise one part per line at the new
    indentation and the closing bracket at the old one. *)
Definition wrap (opening closing gap stepback indent : string) (parts : list string)
  : string :=
  match parts with
  | [] => append opening closing
  | _ :: _ =>
      if String.eqb gap EmptyString then
        append opening (append (join (String "," EmptyString) parts) closing)
      else
        append opening
          (append newline
             (append indent
                (append (join (append (String "," newline) indent) parts)
                   (append newline (append stepback closing)))))
  end.

Section Serialize.

(** [Number::toString] of the run time, for a finite number. *)
Variable number_text : Q -> string.

(** SerializeJSONProperty with the given gap at the given indentation;
    [None] is the [undefined] that [undefined] itself serializes to.  In an
    array an [undefined] element is written [null]; in an object a property
    whose value is [undefined] is left out. *)
Fixpoint serialize (gap indent : string) (v : JSValue) {struct v} : option string :=
  match v with
  | JUndefined => None
  | JNull => Some "null"%string
  | JBool true => Some "true"%string
  | JBool false => Some "false"%string
  | JNum q => Some (number_text q)
  | JStr s => Some (quote s)
  | JArr elements =>
      let inner := append indent gap in
      let parts :=
        (fix items (l : list JSValue) : list string :=
           match l with
           | [] => []
           | x :: rest =>
               match serialize gap inner x with
               | Some text => text
               | None => "null"%string
               end :: items rest
           end) elements in
      Some (wrap "[" "]" gap indent inner parts)
  | JObj properties =>
      let inner := append indent gap in
      let parts :=
        (fix members (l : list (string * JSValue)) : list string :=
           match l with
           | [] => []
           | (key, x) :: rest =>
               match serialize gap inner x with
               | Some text =>
                   append (quote key)
                     (append (if String.eqb gap EmptyString then ":" else ": ")%string text)
                   :: members rest
               | None => members rest
               end
           end) properties in
      Some (wrap "{" "}" gap indent inner parts)
  end.

(** [JSON.stringify(v)] *)
Definition stringify (v : JSValue) : option string :=
  serialize EmptyString EmptyString v.

(** [JSON.stringify(v, null, 2)] *)
Definition stringify_indented (v : JSValue) : option string :=
  serialize "  " EmptyString v.

End Serialize.

End JSONStringify.

(** [text.split(separator)] for a separator of one character. *)
Fixpoint split_on (separator : ascii) (text : string) : list string :=
  match text with
  | EmptyString => [EmptyString]
  | String c rest =>
      if Ascii.eqb c separator then EmptyString :: split_on separator rest
      else
        match split_on separator rest with
        | part :: parts => String c part :: parts
        | [] => [String c EmptyString]
        end
  end.

(** A string or [undefined] inside a template literal. *)
Definition interpolate (text : option string) : string :=
  match text with
  | Some s => s
  | None => "undefined"
  end.

(** A property that holds a string, holds [null] or is absent. *)
Inductive Text : Type :=
| TextAbsent
| TextNull
| TextOf (s : string).

Definition interpolate_text (text : Text) : string :=
  match text with
  | TextAbsent => "undefined"
  | TextNull => "null"
  | TextOf s => s
  end.

(** ** The arguments of the other methods *)

Module PatientInfo.
Record t : Type := { name : string }.
End PatientInfo.

(** [benefits] is an array of strings, or [None] when the property is
    absent or [null]. *)
Module CarePlan.
Record t : Type := {
  name : string;
  description : Text;
  benefits : option (list string)
}.
End CarePlan.

(** One fine-tuning example. *)
Module Example.
Record t : Type := { prompt : JSValue; completion : JSValue }.
End Example.

(** [{ selectBest: true, selectionCriteria }], [selectionCriteria] absent
    for [None]. *)
Definition select_best_by (selectionCriteria : option string) : Options.t :=
  {| Options.temperature := JUndefined;
     Options.maxTokens := JUndefined;
     Options.model := JUndefined;
     Options.selectBest := JBool true;
     Options.selectionCriteria := selectionCriteria |}.

(** ** The prompts of the analysis methods *)

Definition analyzePatientForCarePlans_systemPrompt : string :=
  "You are a healthcare analytics AI assistant specializing in patient care plan matching.
Analyze patient data and recommend appropriate care plans based on:
- Current diagnoses (ICD-10 codes)
- Risk factors
- Demographics
- Care gaps

Provide structured recommendations with confidence scores.".

Definition generateOutreachContent_systemPrompt : string :=
  "You are a healthcare communications specialist.
Generate personalized, empathetic patient outreach content that:
- Uses warm, accessible language
- Clearly explains the care plan benefits
- Includes a clear call to action
- Respects patient privacy
- Follows healthcare communication best practices
- Is HIPAA compliant (no specific PHI in content)".

Definition performRiskStratification_systemPrompt : string :=
  "You are a population health analytics expert.
Analyze patient populations to identify high-risk individuals who would benefit from targeted interventions.
Consider chronic conditions, utilization patterns, and social determinants.".

Definition analyzeICD10Patterns_systemPrompt : string :=
  "You are a clinical coding and analytics expert.
Analyze ICD-10 diagnosis patterns to identify:
- Prevalent conditions
- Comorbidity patterns  
- Care plan opportunities
- Quality measure implications".

Definition identifyCareGaps_systemPrompt : string :=
  "You are a healthcare quality improvement specialist.
Identify care gaps by comparing patient data against evidence-based quality measures.
Focus on preventive care, chronic disease management, and screening compliance.".

(** [carePlan.benefits?.join(', ') || 'Improved health outcomes'] *)
Definition key_benefits (carePlan : CarePlan.t) : string :=
  match CarePlan.benefits carePlan with
  | Some benefits =>
      if String.eqb (JSONStringify.join ", " benefits) EmptyString
      then "Improved health outcomes"
      else JSONStringify.join ", " benefits
  | None => "Improved health outcomes"
  end.

(** [outreachType === 'mail' ? 'Formal letter format' : 'Email format'] *)
Definition format_line (outreachType : string) : string :=
  if String.eqb outreachType "mail" then "Formal letter format" else "Email format".

(** The template literal [prompt] of [generateOutreachContent]. *)
Definition generateOutreachContent_prompt (patientInfo : PatientInfo.t)
    (carePlan : CarePlan.t) (outreachType : string) : string :=
  "
Generate a " ++ outreachType ++ " for this patient:

Patient: " ++ PatientInfo.name patientInfo ++ "
Recommended Care Plan: " ++ CarePlan.name carePlan ++ "
Care Plan Description: " ++ interpolate_text (CarePlan.description carePlan) ++ "
Key Benefits: " ++ key_benefits carePlan ++ "

Requirements:
- Professional but warm tone
- Clear explanation of the program
- Specific call to action
- Contact information placeholder
- " ++ format_line outreachType ++ "

Generate the content:".

Section AnalysisMethods.

Variable this : AIService.t.

(** [Number::toString] of the run time, used by [JSON.stringify]. *)
Variable number_text : Q -> string.

(** [${JSON.stringify(data, null, 2)}] *)
Definition indented (data : JSValue) : string :=
  interpolate (JSONStringify.stringify_indented number_text data).

Definition analyzePatientForCarePlans_prompt (patientData availableCarePlans : JSValue)
  : string :=
  "
Patient Data:
" ++ indented patientData ++ "

Available Care Plans:
" ++ indented availableCarePlans ++ double_quoted "

Analyze this patient and recommend suitable care plans. For each recommendation, provide:
1. Care plan name
2. Match confidence (0-100%)
3. Key matching criteria
4. Potential barriers
5. Expected outcomes

Respond in JSON format:
{
  'recommendations': [
    {
      'carePlanId': 'id',
      'carePlanName': 'name',
      'confidence': 85,
      'matchingCriteria': ['criteria1', 'criteria2'],
      'barriers': ['barrier1'],
      'expectedOutcomes': ['outcome1', 'outcome2'],
      'priority': 'high|medium|low'
    }
  ],
  'riskAssessment': {
    'overallRiskLevel': 'high|medium|low',
    'riskFactors': ['factor1', 'factor2']
  },
  'careGaps': ['gap1', 'gap2']
}".

Definition performRiskStratification_prompt (patientPopulation : JSValue) : string :=
  "
Analyze this patient population for risk stratification:

" ++ indented patientPopulation ++ double_quoted "

Provide:
1. Risk tier assignments (High, Medium, Low)
2. Key risk factors for each tier
3. Recommended interventions by tier
4. Population health insights

Respond in JSON:
{
  'stratification': {
    'high': { 'count': N, 'characteristics': [], 'interventions': [] },
    'medium': { 'count': N, 'characteristics': [], 'interventions': [] },
    'low': { 'count': N, 'characteristics': [], 'interventions': [] }
  },
  'topRiskFactors': [],
  'populationInsights': '',
  'recommendedActions': []
}".

Definition analyzeICD10Patterns_prompt (icd10Data : JSValue) : string :=
  "
Analyze these ICD-10 diagnosis patterns:

" ++ indented icd10Data ++ "

Provide insights on:
1. Most prevalent condition categories
2. Common comorbidity combinations
3. High-value care plan opportunities
4. Quality measure considerations (HEDIS, CMS)
5. Recommended population health strategies

Respond in structured JSON format.".

Definition identifyCareGaps_prompt (patientData qualityMeasures : JSValue) : string :=
  "
Identify care gaps for this patient:

Patient Data:
" ++ indented patientData ++ "

Quality Measures to Check:
" ++ indented qualityMeasures ++ "

For each gap identified, provide:
1. Gap description
2. Associated quality measure
3. Clinical urgency
4. Recommended intervention
5. Expected impact

Respond in JSON format.".

Definition analyzePatientForCarePlans (patientData availableCarePlans : JSValue)
  : Async Results.t :=
  getDualAnalysis this
    (analyzePatientForCarePlans_prompt patientData availableCarePlans)
    analyzePatientForCarePlans_systemPrompt
    (select_best_by (Some "clinical accuracy, completeness, actionability")).

(** [outreachType = 'mail'] stands in for an absent third argument. *)
Definition generateOutreachContent (patientInfo : PatientInfo.t) (carePlan : CarePlan.t)
    (outreachType : option string) : Async Results.t :=
  let outreachType :=
    match outreachType with
    | Some given => given
    | None => "mail"
    end in
  getDualAnalysis this
    (generateOutreachContent_prompt patientInfo carePlan outreachType)
    generateOutreachContent_systemPrompt
    (select_best_by
       (Some "empathy, clarity, professionalism, call-to-action effectiveness")).

Definition performRiskStratification (patientPopulation : JSValue) : Async Results.t :=
  getDualAnalysis this
    (performRiskStratification_prompt patientPopulation)
    performRiskStratification_systemPrompt
    (select_best_by None).

Definition analyzeICD10Patterns (icd10Data : JSValue) : Async Results.t :=
  getDualAnalysis this
    (analyzeICD10Patterns_prompt icd10Data)
    analyzeICD10Patterns_systemPrompt
    (select_best_by None).

Definition identifyCareGaps (patientData qualityMeasures : JSValue) : Async Results.t :=
  getDualAnalysis this
    (identifyCareGaps_prompt patientData qualityMeasures)
    identifyCareGaps_systemPrompt
    (select_best_by None).

(** The object [generateFineTuningData] builds for one example. *)
Definition training_record (example : Example.t) : JSValue :=
  JObj [ ("messages",
          JArr [ JObj [("role", JStr "system");
                       ("content", JStr "You are a healthcare analytics AI assistant.")];
                 JObj [("role", JStr "user"); ("content", Example.prompt example)];
                 JObj [("role", JStr "assistant");
                       ("content", Example.completion example)] ]) ].

(** One line of the data set, [JSON.stringify(d)]; an object always has
    a text. *)
Definition training_line (example : Example.t) : string :=
  match JSONStringify.stringify number_text (training_record example) with
  | Some text => text
  | None => "undefined"
  end.

Definition generateFineTuningData (examples : list Example.t) : Async string :=
  let formattedData := map training_record examples in
  ret (JSONStringify.join JSONStringify.newline
         (map (fun d => match JSONStringify.stringify number_text d with
                        | Some text => text
                        | None => "undefined"
                        end) formattedData)).

End AnalysisMethods.

(** ** Batches *)

(** What a batch run has done: the requests and log entries of its
    calls, and the timeouts it waited for, in milliseconds. *)
Record BatchTrace : Type := mkBatchTrace {
  calls : Trace;
  timers : list nat
}.

(** Association by position. *)
Fixpoint found {A} (k : nat) (entries : list (nat * A)) : option A :=
  match entries with
  | [] => None
  | (k', a) :: rest => if Nat.eqb k' k then Some a else found k rest
  end.

(** [prompts.slice(i, i + batchSize)] *)
Definition slice {A} (first last : nat) (l : list A) : list A :=
  firstn (last - first) (skipn first l).

Section Batches.

Variable this : AIService.t.
Variables (systemPrompt : string) (options : Options.t).

(** [getDualAnalysis] up to its first [await]: both backend calls are
    issued and settle. *)
Definition dispatch (prompt : string)
  : Async (Outcome OpenAIResult.t * Outcome ClaudeResult.t) :=
  allSettled (getOpenAIResponse this prompt systemPrompt options)
             (getClaudeResponse this prompt systemPrompt options).

(** [getDualAnalysis] after its first [await]: the result is put
    together, with the judge when it is asked for. *)
Definition conclude (prompt : string)
    (settled : Outcome OpenAIResult.t * Outcome ClaudeResult.t) : Async Results.t :=
  let (openaiResponse, claudeResponse) := settled in
  let results :=
    {| Results.openai := value_or_null openaiResponse;
       Results.claude := value_or_null claudeResponse;
       Results.errors :=
         {| Errors.openai := reason_message openaiResponse;
            Errors.claude := reason_message claudeResponse |};
       Results.selected := None |} in
  match truthy (Options.selectBest options), Results.openai results, Results.claude results with
  | true, Some openaiResult, Some claudeResult =>
      selected <- selectBestResponse this openaiResult claudeResult prompt
                                     (Options.selectionCriteria options) ;;
      ret {| Results.openai := Results.openai results;
             Results.claude := Results.claude results;
             Results.errors := Results.errors results;
             Results.selected := Some selected |}
  | _, _, _ => ret results
  end.

(** [batch.map(prompt => this.getDualAnalysis(...))], as far as the calls
    run before any of them is resumed: every call issues its two requests,
    in the order of the batch.  The error entries of the log are written
    as the requests settle; they are recorded here in the order of the
    batch, and nothing is stated about their order. *)
Fixpoint dispatch_all (batch : list string)
  : Async (list (string * (Outcome OpenAIResult.t * Outcome ClaudeResult.t))) :=
  match batch with
  | [] => ret []
  | prompt :: rest =>
      settled <- dispatch prompt ;;
      others <- dispatch_all rest ;;
      ret ((prompt, settled) :: others)
  end.

(** The calls are resumed in the order their requests settle, which the
    service does not control: [order] lists positions of the batch, and a
    call is resumed at the first mention of its position. *)
Fixpoint conclude_in (order : list nat)
    (started : list (string * (Outcome OpenAIResult.t * Outcome ClaudeResult.t)))
    (finished : list (nat * Results.t)) : Async (list (nat * Results.t)) :=
  match order with
  | [] => ret finished
  | k :: later =>
      match nth_error started k, found k finished with
      | Some (prompt, settled), None =>
          results <- conclude prompt settled ;;
          conclude_in later started ((k, results) :: finished)
      | _, _ => conclude_in later started finished
      end
  end.

(** The values of [Promise.all], in the order of the batch. *)
Definition in_batch_order (size : nat) (finished : list (nat * Results.t))
  : list Results.t :=
  flat_map (fun k => match found k finished with
                     | Some results => [results]
                     | None => []
                     end) (seq 0 size).

(** [await Promise.all(batch.map(prompt => this.getDualAnalysis(prompt,
    systemPrompt, options)))].  Every call is resumed: the positions that
    [order] leaves out come last, in the order of the batch.  A rejection
    rejects the whole. *)
Definition all_analyses (order : list nat) (batch : list string)
  : Async (list Results.t) :=
  started <- dispatch_all batch ;;
  finished <- conclude_in (order ++ seq 0 (List.length batch)) started [] ;;
  ret (in_batch_order (List.length batch) finished).

(** [options.batchSize || 5], for a batch size that is absent or a
    non-negative integer. *)
Definition batch_size (batchSize : option nat) : nat :=
  match batchSize with
  | Some (S n) => S n
  | Some O | None => 5
  end.

(** The [for] loop of [batchProcess] from index [i] on; [orders i] is the
    order in which the calls of the batch starting at [i] settle.  The
    loop runs at most once per prompt, which [steps] counts down. *)
Fixpoint batch_loop (orders : nat -> list nat) (prompts : list string) (batchSize : nat)
    (steps : nat) (i : nat) (results : list Results.t) (bt : BatchTrace)
  : Outcome (list Results.t) * BatchTrace :=
  match steps with
  | O => (Fulfilled results, bt)
  | S steps' =>
      if Nat.ltb i (List.length prompts) then
        let batch := slice i (i + batchSize) prompts in
        match all_analyses (orders i) batch (calls bt) with
        | (Rejected error, t') => (Rejected error, mkBatchTrace t' (timers bt))
        | (Fulfilled batchResults, t') =>
            let results := (results ++ batchResults)%list in
            let waited :=
              if Nat.ltb (i + batchSize) (List.length prompts)
              then (timers bt ++ [1000%nat])%list
              else timers bt in
            batch_loop orders prompts batchSize steps' (i + batchSize) results
                       (mkBatchTrace t' waited)
        end
      else (Fulfilled results, bt)
  end.

Definition batchProcess (orders : nat -> list nat) (prompts : list string)
    (batchSize : option nat) (bt : BatchTrace) : Outcome (list Results.t) * BatchTrace :=
  batch_loop orders prompts (batch_size batchSize) (List.length prompts) 0 [] bt.

End Batches.



(** ** Test doubles for the two clients *)

Module Stubs.

Definition APIError (msg : string) : JSError.t := JSError.mk "APIError" msg.

(** A chat completion with one choice holding [text]. *)
Definition completion (text : option string) : OpenAI.ChatCompletion :=
  {| OpenAI.choices :=
       [ {| OpenAI.message := {| OpenAI.content := text |};
            OpenAI.finish_reason := JStr "stop" |} ];
     OpenAI.usage := JObj [("prompt_tokens", JNum 12); ("completion_tokens", JNum 34)] |}.

(** An Anthropic message with one text block. *)
Definition claude_message (text : string) : Anthropic.Message :=
  {| Anthropic.content := [ {| Anthropic.text := text |} ];
     Anthropic.model := JStr "claude-3-5-sonnet-20241022";
     Anthropic.usage := {| Anthropic.input_tokens := JNum 10;
                           Anthropic.output_tokens := JNum 20 |};
     Anthropic.stop_reason := JStr "end_turn" |}.

(** A client that answers its n-th call with the n-th entry of the
    script and fails once the script is used up. *)
Definition scripted {R} (script : list (Outcome R)) : list JSValue -> JSValue -> Outcome R :=
  fun earlier _ => nth (List.length earlier) script (Rejected (APIError "Connection error.")).

Definition service (openai_script : list (Outcome OpenAI.ChatCompletion))
    (anthropic_script : list (Outcome Anthropic.Message)) : AIService.t :=
  new_AIService (scripted openai_script) (scripted anthropic_script) None.

Definition select_best : Options.t :=
  {| Options.temperature := JUndefined; Options.maxTokens := JUndefined;
     Options.model := JUndefined; Options.selectBest := JBool true;
     Options.selectionCriteria := None |}.

Definition verdict_A : string :=
  double_quoted "{'selected': 'A', 'reasoning': 'clearer', 'scores': {'A': {'accuracy': 9, 'helpfulness': 8, 'clarity': 9}, 'B': {'accuracy': 7, 'helpfulness': 8, 'clarity': 6}}}".

Definition verdict_B : string :=
  double_quoted "{'selected': 'B', 'reasoning': 'more complete', 'scores': {'A': {'accuracy': 6, 'helpfulness': 6, 'clarity': 7}, 'B': {'accuracy': 9, 'helpfulness': 9, 'clarity': 8}}}".

(** Results of two earlier generation calls, as handed to the judge. *)
Definition gpt_result : OpenAIResult.t :=
  {| OpenAIResult.content := Some "from gpt";
     OpenAIResult.model := JStr "gpt-4-turbo-preview";
     OpenAIResult.usage := JObj [("prompt_tokens", JNum 12); ("completion_tokens", JNum 34)];
     OpenAIResult.finishReason := JStr "stop" |}.

Definition claude_result : ClaudeResult.t :=
  {| ClaudeResult.content := Some "from claude";
     ClaudeResult.model := JStr "claude-3-5-sonnet-20241022";
     ClaudeResult.usage := {| Anthropic.input_tokens := JNum 10;
                              Anthropic.output_tokens := JNum 20 |};
     ClaudeResult.stopReason := JStr "end_turn" |}.

(** A service whose OpenAI client answers its first call with [reply]. *)
Definition judge_replying (reply : option string) : AIService.t :=
  service [Fulfilled (completion reply)] [].

(** Both backends answer, and the judge answers with [reply]. *)
Definition both_up (reply : string) : AIService.t :=
  service [Fulfilled (completion (Some "from gpt")); Fulfilled (completion (Some reply))]
          [Fulfilled (claude_message "from claude")].

Definition openai_down : AIService.t :=
  service [Rejected (APIError "401 Incorrect API key provided")]
          [Fulfilled (claude_message "from claude")].

Definition claude_down : AIService.t :=
  service [Fulfilled (completion (Some "from gpt"))]
          [Rejected (APIError "529 Overloaded")].

Definition both_down : AIService.t :=
  service [Rejected (APIError "429 Rate limit reached")]
          [Rejected (APIError "529 Overloaded")].

(** [{ temperature: 0, maxTokens: 0 }] *)
Definition zero_sampling : Options.t :=
  {| Options.temperature := JNum 0; Options.maxTokens := JNum 0;
     Options.model := JUndefined; Options.selectBest := JUndefined;
     Options.selectionCriteria := None |}.

(** [{ temperature: 0 }] *)
Definition zero_temperature : Options.t :=
  {| Options.temperature := JNum 0; Options.maxTokens := JUndefined;
     Options.model := JUndefined; Options.selectBest := JUndefined;
     Options.selectionCriteria := None |}.

End Stubs.

(** ** Sample data for the other methods *)

Module Samples.

Import Stubs.

(** A chat completion without choices, and an Anthropic message without
    content blocks. *)
Definition no_choices : OpenAI.ChatCompletion :=
  {| OpenAI.choices := []; OpenAI.usage := JNull |}.

Definition no_blocks : Anthropic.Message :=
  {| Anthropic.content := [];
     Anthropic.model := JStr "claude-3-5-sonnet-20241022";
     Anthropic.usage := {| Anthropic.input_tokens := JNum 10;
                           Anthropic.output_tokens := JNum 0 |};
     Anthropic.stop_reason := JStr "end_turn" |}.

Definition openai_empty : AIService.t :=
  service [Fulfilled no_choices] [Fulfilled (claude_message "from claude")].

Definition claude_empty : AIService.t :=
  service [Fulfilled (completion (Some "from gpt"))] [Fulfilled no_blocks].


(** [{ model: 'gpt-4o', temperature: 1.2, selectBest: true }] *)
Definition warm_other_model : Options.t :=
  {| Options.temperature := JNum (12 # 10); Options.maxTokens := JUndefined;
     Options.model := JStr "gpt-4o"; Options.selectBest := JBool true;
     Options.selectionCriteria := None |}.

(** The samples hold no number, so no number is ever written. *)
Definition no_number : Q -> string := fun _ => EmptyString.

Definition patient : JSValue :=
  JObj [("id", JStr "p-17"); ("conditions", JArr [JStr "E11.9"; JStr "I10"])].

Definition care_plans : JSValue :=
  JArr [JObj [("id", JStr "cp-1"); ("name", JStr "Diabetes management")]].

Definition measures : JSValue :=
  JArr [JStr "HbA1c testing"; JStr "Blood pressure control"].

Definition patient_info : PatientInfo.t := {| PatientInfo.name := "Ada" |}.

Definition diabetes_plan : CarePlan.t :=
  {| CarePlan.name := "Diabetes management";
     CarePlan.description := TextOf "Quarterly check-ups and coaching";
     CarePlan.benefits := Some ["Fewer complications"; "Personal coaching"] |}.


(** Two examples with quotes, a backslash and a line break in them. *)
Definition tricky_texts : list (string * string) :=
  [ (double_quoted "Summarise 'E11.9'", String "010" "Type 2 diabetes \ no complications");
    ("Second", "Line") ].




End Samples.

(** * Properties *)

(** ** The run time *)

Lemma strict_eq_str_true (v : JSValue) (lit : string) :
  strict_eq_str v lit = true <-> v = JStr lit.
Proof.
  split.
  - destruct v; simpl; try discriminate.
    intros H. apply String.eqb_eq in H. now subst.
  - intros ->. simpl. apply String.eqb_refl.
Qed.

Lemma get_prop_defined (v : JSValue) (k : string) :
  v <> JUndefined -> v <> JNull -> get_prop v k = Fulfilled (prop v k).
Proof.
  intros Hu Hn. destruct v; try reflexivity; contradiction.
Qed.

(** A property that reads as a string belongs to an object. *)
Lemma prop_string_defined (v : JSValue) (k s : string) :
  prop v k = JStr s -> v <> JUndefined /\ v <> JNull.
Proof.
  destruct v; simpl; intros H; try discriminate.
  split; discriminate.
Qed.

(** ** The parser *)

Module JSONFacts.

Import JSON.
Local Open Scope nat_scope.

(** Case analysis on a character the parser dispatches on. *)
Ltac each_char c := destruct c as [[] [] [] [] [] [] [] []].

(** The only character left is the one that [H] excludes. *)
Ltac excluded H := exfalso; now apply H.

Lemma skip_ws_length (s : string) : String.length (skip_ws s) <= String.length s.
Proof.
  induction s as [|c s IH]; simpl; [lia|].
  destruct (is_ws c); simpl; lia.
Qed.

Lemma strip_prefix_length (p s r : string) :
  strip_prefix p s = Some r -> String.length r <= String.length s.
Proof.
  revert s. induction p as [|a p IH]; intros [|b s]; simpl; try discriminate.
  - intros H; injection H as <-; simpl; lia.
  - intros H; injection H as <-; simpl; lia.
  - destruct (Ascii.eqb a b); [|discriminate].
    intros H. apply IH in H. lia.
Qed.

Lemma take_digits_length (s : string) : forall acc count m count' r,
  take_digits acc count s = (m, count', r) ->
  String.length r + count' = String.length s + count.
Proof.
  induction s as [|c s IH]; intros acc count m count' r; simpl.
  - intros H; injection H as _ <- <-. reflexivity.
  - destruct (digit_of c).
    + intros H. apply IH in H. lia.
    + intros H; injection H as _ <- <-. reflexivity.
Qed.

Lemma fraction_length (int : N) (s : string) (m : N) (n : nat) (r : string) :
  fraction int s = Some (m, n, r) -> String.length r <= String.length s.
Proof.
  unfold fraction. destruct s as [|c s']; [intros H; injection H as _ _ <-; lia|].
  destruct (Ascii.eqb_spec c "."%char) as [->|Hc].
  - destruct (take_digits int 0 s') as [[m' n'] r'] eqn:E.
    apply take_digits_length in E.
    destruct (Nat.eqb n' 0); [discriminate|].
    intros H; injection H as _ _ <-. simpl. lia.
  - each_char c;
      try (intros H; injection H as _ _ <-; lia); excluded Hc.
Qed.

Lemma sign_length (s : string) : String.length (snd (sign s)) <= String.length s.
Proof.
  destruct s as [|c s']; simpl; [lia|].
  each_char c; simpl; lia.
Qed.

Lemma exponent_length (s : string) (e : Z) (r : string) :
  exponent s = Some (e, r) -> String.length r <= String.length s.
Proof.
  unfold exponent. destruct s as [|c s']; [intros H; injection H as _ <-; lia|].
  destruct (Ascii.eqb c "e" || Ascii.eqb c "E"); [|intros H; injection H as _ <-; lia].
  pose proof (sign_length s') as Hsign.
  destruct (sign s') as [negative s'']. simpl in Hsign.
  destruct (take_digits 0 0 s'') as [[e' n] rest] eqn:E.
  apply take_digits_length in E.
  destruct (Nat.eqb n 0); [discriminate|].
  intros H; injection H as _ <-. simpl. lia.
Qed.

Lemma number_body_length (negative : bool) (s : string) (v : JSValue) (r : string) :
  number_body negative s = Some (v, r) -> String.length r < String.length s.
Proof.
  unfold number_body.
  destruct (take_digits 0 0 s) as [[int n] s1] eqn:Eint.
  apply take_digits_length in Eint.
  destruct (Nat.eqb_spec n 0) as [->|Hn]; simpl; [discriminate|].
  match goal with |- context [if ?b then None else _] => destruct b end; [discriminate|].
  destruct (fraction int s1) as [[[m fd] s2]|] eqn:Efrac; [|discriminate].
  apply fraction_length in Efrac.
  destruct (exponent s2) as [[e rest]|] eqn:Eexp; [|discriminate].
  apply exponent_length in Eexp.
  intros H; injection H as _ <-. lia.
Qed.

Lemma number_body_produced (negative : bool) (s : string) (v : JSValue) (r : string) :
  number_body negative s = Some (v, r) -> v <> JUndefined.
Proof.
  unfold number_body.
  destruct (take_digits 0 0 s) as [[int n] s1].
  destruct (Nat.eqb n 0 || _); [discriminate|].
  destruct (fraction int s1) as [[[m fd] s2]|]; [|discriminate].
  destruct (exponent s2) as [[e rest]|]; [|discriminate].
  intros H. injection H as <- _. discriminate.
Qed.

Lemma string_body_length_upto (n : nat) : forall s body r,
  String.length s <= n ->
  string_body s = Some (body, r) -> String.length r < String.length s.
Proof.
  induction n as [|n IH]; intros s body r Hn.
  - destruct s; [discriminate | simpl in Hn; lia].
  - destruct s as [|c s]; [discriminate|].
    simpl in Hn.
    assert (Hplain : forall x,
               match string_body s with
               | Some (body', rest') => Some (String x body', rest')
               | None => None
               end = Some (body, r) -> String.length r < String.length (String c s)).
    { intros x. destruct (string_body s) as [[body' rest']|] eqn:E; [|discriminate].
      apply IH in E; [|lia]. intros H; injection H as _ <-. simpl; lia. }
    destruct (Ascii.eqb_spec c "034"%char) as [->|Hquote].
    { simpl. intros H; injection H as _ <-. simpl; lia. }
    destruct (Ascii.eqb_spec c "\"%char) as [->|Hslash].
    2: { each_char c; simpl;
           try (excluded Hquote); try (excluded Hslash);
           try discriminate; apply Hplain. }
    destruct s as [|e s]; [simpl; discriminate|].
    assert (Hescape : forall x,
               match string_body s with
               | Some (body', rest') => Some (String x body', rest')
               | None => None
               end = Some (body, r)
               -> String.length r < String.length (String "\"%char (String e s))).
    { intros x.
      destruct (string_body s) as [[body' rest']|] eqn:E; [|discriminate].
      apply IH in E; [|simpl in Hn; lia]. intros H; injection H as _ <-. simpl; lia. }
    destruct (Ascii.eqb_spec e "u"%char) as [->|Hu].
    2: { each_char e; simpl;
           try (excluded Hu); try discriminate;
           try (destruct (string_body s) as [[? ?]|]; discriminate);
           apply Hescape. }
    destruct s as [|a [|b [|c [|d s]]]]; try (simpl; discriminate).
    simpl.
    destruct (hex_of a), (hex_of b), (hex_of c), (hex_of d); try discriminate.
    destruct (string_body s) as [[body' rest']|] eqn:E; [|discriminate].
    apply IH in E; [|simpl in Hn; lia]. intros H; injection H as _ <-. simpl; lia.
Qed.

Lemma string_body_length (s body r : string) :
  string_body s = Some (body, r) -> String.length r < String.length s.
Proof. now apply (string_body_length_upto (String.length s)). Qed.

(** A parser that succeeds returns a defined value and a shorter text. *)
Lemma value_of_well_behaved elements members :
  (forall acc, well_behaved (elements acc)) ->
  (forall acc, well_behaved (members acc)) ->
  well_behaved (value_of elements members).
Proof.
  intros Hel Hmem s v r. unfold value_of.
  pose proof (skip_ws_length s) as Hws.
  destruct (skip_ws s) as [|c rest]; [discriminate|]. simpl in Hws.
  assert (Hnum : forall neg s', String.length s' <= String.length s ->
                   number_body neg s' = Some (v, r) ->
                   v <> JUndefined /\ String.length r < String.length s).
  { intros neg s' Hs' H. split; [exact (number_body_produced _ _ _ _ H)|].
    apply number_body_length in H. lia. }
  assert (Hlit : forall lit x,
             option_map (pair x) (strip_prefix lit rest) = Some (v, r) ->
             x <> JUndefined -> v <> JUndefined /\ String.length r < String.length s).
  { intros lit x H Hx. destruct (strip_prefix lit rest) as [r'|] eqn:E; [|discriminate].
    injection H as <- <-. apply strip_prefix_length in E. split; [exact Hx | lia]. }
  each_char c;
    try (apply (Hnum false); simpl; lia);
    try (apply (Hnum true); simpl; lia);
    try (intros H; apply Hlit in H; [exact H | discriminate]).
  - (* an object *)
    pose proof (skip_ws_length rest) as Hws'.
    assert (Hrec : members [] rest = Some (v, r) ->
                   v <> JUndefined /\ String.length r < String.length s).
    { intros H. apply Hmem in H. split; [tauto | lia]. }
    destruct (skip_ws rest) as [|c rest']; [exact Hrec|]. simpl in Hws'.
    destruct (Ascii.eqb_spec c "}"%char) as [->|Hc].
    + intros H; injection H as <- <-. split; [discriminate | lia].
    + each_char c; try exact Hrec; excluded Hc.
  - (* an array *)
    pose proof (skip_ws_length rest) as Hws'.
    assert (Hrec : elements [] rest = Some (v, r) ->
                   v <> JUndefined /\ String.length r < String.length s).
    { intros H. apply Hel in H. split; [tauto | lia]. }
    destruct (skip_ws rest) as [|c rest']; [exact Hrec|]. simpl in Hws'.
    destruct (Ascii.eqb_spec c "]"%char) as [->|Hc].
    + intros H; injection H as <- <-. split; [discriminate | lia].
    + each_char c; try exact Hrec; excluded Hc.
  - (* a string *)
    destruct (string_body rest) as [[str rest']|] eqn:E; [|discriminate].
    apply string_body_length in E.
    intros H; injection H as <- <-. split; [discriminate | lia].
Qed.

Lemma elements_of_well_behaved value elements :
  well_behaved value ->
  (forall acc, well_behaved (elements acc)) ->
  forall acc, well_behaved (elements_of value elements acc).
Proof.
  intros Hval Hel acc s v r. unfold elements_of.
  destruct (value s) as [[x s1]|] eqn:Ex; [|discriminate].
  apply Hval in Ex. destruct Ex as [_ Hs1].
  pose proof (skip_ws_length s1) as Hws.
  destruct (skip_ws s1) as [|c s2]; [discriminate|]. simpl in Hws.
  destruct (Ascii.eqb_spec c ","%char) as [->|Hcomma].
  { intros H. apply Hel in H. split; [tauto | lia]. }
  destruct (Ascii.eqb_spec c "]"%char) as [->|Hclose].
  { intros H; injection H as <- <-. split; [discriminate | lia]. }
  each_char c; try discriminate;
    (excluded Hcomma) || (excluded Hclose).
Qed.

Lemma members_of_well_behaved value members :
  well_behaved value ->
  (forall acc, well_behaved (members acc)) ->
  forall acc, well_behaved (members_of value members acc).
Proof.
  intros Hval Hmem acc s v r. unfold members_of.
  pose proof (skip_ws_length s) as Hws.
  destruct (skip_ws s) as [|q s1]; [discriminate|]. simpl in Hws.
  destruct (Ascii.eqb_spec q "034"%char) as [->|Hq];
    [|each_char q; try discriminate; excluded Hq].
  destruct (string_body s1) as [[key s2]|] eqn:Ekey; [|discriminate].
  apply string_body_length in Ekey.
  pose proof (skip_ws_length s2) as Hws2.
  destruct (skip_ws s2) as [|colon s3]; [discriminate|]. simpl in Hws2.
  destruct (Ascii.eqb_spec colon ":"%char) as [->|Hcolon];
    [|each_char colon; try discriminate;
      excluded Hcolon].
  destruct (value s3) as [[x s4]|] eqn:Ex; [|discriminate].
  apply Hval in Ex. destruct Ex as [_ Hs4].
  pose proof (skip_ws_length s4) as Hws4.
  destruct (skip_ws s4) as [|c s5]; [discriminate|]. simpl in Hws4.
  destruct (Ascii.eqb_spec c ","%char) as [->|Hcomma].
  { intros H. apply Hmem in H. split; [tauto | lia]. }
  destruct (Ascii.eqb_spec c "}"%char) as [->|Hclose].
  { intros H; injection H as <- <-. split; [discriminate | lia]. }
  each_char c; try discriminate;
    (excluded Hcomma) || (excluded Hclose).
Qed.

Lemma parsers_well_behaved (fuel : nat) :
  well_behaved (value fuel)
  /\ (forall acc, well_behaved (elements fuel acc))
  /\ (forall acc, well_behaved (members fuel acc)).
Proof.
  induction fuel as [|fuel [IHv [IHe IHm]]].
  - repeat split; discriminate.
  - split; [|split].
    + intros s. now apply (value_of_well_behaved (elements fuel) (members fuel)).
    + intros acc s. now apply (elements_of_well_behaved (value fuel) (elements fuel)).
    + intros acc s. now apply (members_of_well_behaved (value fuel) (members fuel)).
Qed.

(** The result of a parser depends only on what the parsers it calls do
    on shorter texts. *)
Lemma value_of_agree elements elements' members members' (s : string) :
  (forall acc s', String.length s' < String.length s -> elements acc s' = elements' acc s') ->
  (forall acc s', String.length s' < String.length s -> members acc s' = members' acc s') ->
  value_of elements members s = value_of elements' members' s.
Proof.
  intros Hel Hmem. unfold value_of.
  pose proof (skip_ws_length s) as Hws.
  destruct (skip_ws s) as [|c rest]; [reflexivity|]. simpl in Hws.
  pose proof (skip_ws_length rest) as Hws'.
  each_char c; try reflexivity.
  - destruct (skip_ws rest) as [|c rest']; [apply Hmem; lia|].
    each_char c; try reflexivity; apply Hmem; lia.
  - destruct (skip_ws rest) as [|c rest']; [apply Hel; lia|].
    each_char c; try reflexivity; apply Hel; lia.
Qed.

Lemma elements_of_agree value value' elements elements' acc (s : string) :
  well_behaved value ->
  value s = value' s ->
  (forall acc s', String.length s' < String.length s -> elements acc s' = elements' acc s') ->
  elements_of value elements acc s = elements_of value' elements' acc s.
Proof.
  intros Hval Hsame Hel. unfold elements_of. rewrite <- Hsame.
  destruct (value s) as [[x s1]|] eqn:Ex; [|reflexivity].
  apply Hval in Ex. destruct Ex as [_ Hs1].
  pose proof (skip_ws_length s1) as Hws.
  destruct (skip_ws s1) as [|c s2]; [reflexivity|]. simpl in Hws.
  each_char c; try reflexivity. apply Hel; lia.
Qed.

Lemma members_of_agree value value' members members' acc (s : string) :
  well_behaved value ->
  (forall s', String.length s' < String.length s -> value s' = value' s') ->
  (forall acc s', String.length s' < String.length s -> members acc s' = members' acc s') ->
  members_of value members acc s = members_of value' members' acc s.
Proof.
  intros Hval Hsame Hmem. unfold members_of.
  pose proof (skip_ws_length s) as Hws.
  destruct (skip_ws s) as [|q s1]; [reflexivity|]. simpl in Hws.
  destruct (Ascii.eqb_spec q "034"%char) as [->|Hq];
    [|each_char q; try reflexivity; excluded Hq].
  destruct (string_body s1) as [[key s2]|] eqn:Ekey; [|reflexivity].
  apply string_body_length in Ekey.
  pose proof (skip_ws_length s2) as Hws2.
  destruct (skip_ws s2) as [|colon s3]; [reflexivity|]. simpl in Hws2.
  destruct (Ascii.eqb_spec colon ":"%char) as [->|Hcolon];
    [|each_char colon; try reflexivity;
      excluded Hcolon].
  rewrite <- (Hsame s3) by lia.
  destruct (value s3) as [[x s4]|] eqn:Ex; [|reflexivity].
  apply Hval in Ex. destruct Ex as [_ Hs4].
  pose proof (skip_ws_length s4) as Hws4.
  destruct (skip_ws s4) as [|c s5]; [reflexivity|]. simpl in Hws4.
  each_char c; try reflexivity. apply Hmem; lia.
Qed.

(** Past twice the length of the text, one more unit of fuel changes
    nothing. *)
Lemma one_more_fuel (fuel : nat) :
  (forall s, 2 * String.length s + 2 <= fuel -> value fuel s = value (S fuel) s)
  /\ (forall acc s, 2 * String.length s + 3 <= fuel ->
        elements fuel acc s = elements (S fuel) acc s)
  /\ (forall acc s, 2 * String.length s + 3 <= fuel ->
        members fuel acc s = members (S fuel) acc s).
Proof.
  induction fuel as [|fuel [IHv [IHe IHm]]].
  - repeat split; intros; lia.
  - destruct (parsers_well_behaved fuel) as [Hv _].
    split; [|split].
    + intros s Hs.
      change (value_of (elements fuel) (members fuel) s
              = value_of (elements (S fuel)) (members (S fuel)) s).
      apply value_of_agree; intros acc s' Hs'; [apply IHe | apply IHm]; lia.
    + intros acc s Hs.
      change (elements_of (value fuel) (elements fuel) acc s
              = elements_of (value (S fuel)) (elements (S fuel)) acc s).
      apply elements_of_agree;
        [exact Hv | apply IHv; lia | intros acc' s' Hs'; apply IHe; lia].
    + intros acc s Hs.
      change (members_of (value fuel) (members fuel) acc s
              = members_of (value (S fuel)) (members (S fuel)) acc s).
      apply members_of_agree;
        [exact Hv | intros s' Hs'; apply IHv; lia | intros acc' s' Hs'; apply IHm; lia].
Qed.

(** The fuel [parse] starts with is enough: more fuel gives the same
    result, so [parse] fails only where the text is not JSON. *)
Lemma fuel_is_enough (text : string) (more : nat) :
  value (2 * String.length text + 4 + more) text
  = value (2 * String.length text + 4) text.
Proof.
  induction more as [|more IH]; [now rewrite Nat.add_0_r|].
  rewrite Nat.add_succ_r, <- IH. symmetry.
  apply (one_more_fuel (2 * String.length text + 4 + more)). lia.
Qed.

(** [JSON.parse] never produces [undefined]. *)
Lemma parse_produced (text : string) (v : JSValue) :
  parse text = Some v -> v <> JUndefined.
Proof.
  unfold parse.
  destruct (value _ text) as [[x rest]|] eqn:E; [|discriminate].
  destruct (skip_ws rest); [|discriminate].
  intros H. injection H as <-.
  exact (proj1 (proj1 (parsers_well_behaved _) _ _ _ E)).
Qed.

End JSONFacts.

(** ** One backend call *)

Section BackendCalls.

Variable this : AIService.t.
Variables (prompt systemPrompt : string) (options : Options.t).

(** What a run of [getOpenAIResponse] amounts to. *)
Lemma getOpenAIResponse_run (t : Trace) :
  getOpenAIResponse this prompt systemPrompt options t =
  let request := openai_request this prompt systemPrompt options in
  let sent := (openai_requests t ++ [request])%list in
  match AIService.openai this (openai_requests t) request with
  | Fulfilled response =>
      match OpenAI.choices response with
      | choice :: _ =>
          (Fulfilled
             {| OpenAIResult.content := OpenAI.content (OpenAI.message choice);
                OpenAIResult.model := js_or (js_or (AIService.fineTunedModel this)
                                                   (Options.model options))
                                            (JStr "gpt-4-turbo-preview");
                OpenAIResult.usage := OpenAI.usage response;
                OpenAIResult.finishReason := OpenAI.finish_reason choice |},
           mkTrace sent (anthropic_requests t) (logged t))
      | [] =>
          let error := TypeError "Cannot read properties of undefined (reading 'message')" in
          (Rejected error,
           mkTrace sent (anthropic_requests t)
                   (logged t ++ [LogError "OpenAI API error:" (JSError.message error)]))
      end
  | Rejected error =>
      (Rejected error,
       mkTrace sent (anthropic_requests t)
               (logged t ++ [LogError "OpenAI API error:" (JSError.message error)]))
  end.
Proof.
  unfold getOpenAIResponse, try_catch, bind, chat_completions_create; simpl.
  destruct (AIService.openai this _ _) as [response|error]; [|reflexivity].
  destruct (OpenAI.choices response); reflexivity.
Qed.

Lemma getClaudeResponse_run (t : Trace) :
  getClaudeResponse this prompt systemPrompt options t =
  let request := claude_request prompt systemPrompt options in
  let sent := (anthropic_requests t ++ [request])%list in
  match AIService.anthropic this (anthropic_requests t) request with
  | Fulfilled response =>
      match Anthropic.content response with
      | block :: _ =>
          (Fulfilled
             {| ClaudeResult.content := Some (Anthropic.text block);
                ClaudeResult.model := Anthropic.model response;
                ClaudeResult.usage :=
                  {| Anthropic.input_tokens :=
                       Anthropic.input_tokens (Anthropic.usage response);
                     Anthropic.output_tokens :=
                       Anthropic.output_tokens (Anthropic.usage response) |};
                ClaudeResult.stopReason := Anthropic.stop_reason response |},
           mkTrace (openai_requests t) sent (logged t))
      | [] =>
          let error := TypeError "Cannot read properties of undefined (reading 'text')" in
          (Rejected error,
           mkTrace (openai_requests t) sent
                   (logged t ++ [LogError "Claude API error:" (JSError.message error)]))
      end
  | Rejected error =>
      (Rejected error,
       mkTrace (openai_requests t) sent
               (logged t ++ [LogError "Claude API error:" (JSError.message error)]))
  end.
Proof.
  unfold getClaudeResponse, try_catch, bind, messages_create; simpl.
  destruct (AIService.anthropic this _ _) as [response|error]; [|reflexivity].
  destruct (Anthropic.content response); reflexivity.
Qed.

(** Each call hands exactly one request to its own client and none to
    the other. *)
Lemma getOpenAIResponse_requests (t : Trace) :
  openai_requests (snd (getOpenAIResponse this prompt systemPrompt options t)) =
    (openai_requests t ++ [openai_request this prompt systemPrompt options])%list
  /\ anthropic_requests (snd (getOpenAIResponse this prompt systemPrompt options t)) =
    anthropic_requests t.
Proof.
  rewrite getOpenAIResponse_run; simpl.
  destruct (AIService.openai this _ _) as [response|error]; [|now split].
  destruct (OpenAI.choices response); now split.
Qed.

Lemma getClaudeResponse_requests (t : Trace) :
  anthropic_requests (snd (getClaudeResponse this prompt systemPrompt options t)) =
    (anthropic_requests t ++ [claude_request prompt systemPrompt options])%list
  /\ openai_requests (snd (getClaudeResponse this prompt systemPrompt options t)) =
    openai_requests t.
Proof.
  rewrite getClaudeResponse_run; simpl.
  destruct (AIService.anthropic this _ _) as [response|error]; [|now split].
  destruct (Anthropic.content response); now split.
Qed.

(** How a call settles depends on the trace only through the requests
    its own client has seen. *)
Lemma getOpenAIResponse_frame (t t' : Trace) :
  openai_requests t = openai_requests t' ->
  fst (getOpenAIResponse this prompt systemPrompt options t) =
  fst (getOpenAIResponse this prompt systemPrompt options t').
Proof.
  intros E. rewrite !getOpenAIResponse_run; simpl. rewrite E.
  destruct (AIService.openai this _ _) as [response|error]; [|reflexivity].
  destruct (OpenAI.choices response); reflexivity.
Qed.

Lemma getClaudeResponse_frame (t t' : Trace) :
  anthropic_requests t = anthropic_requests t' ->
  fst (getClaudeResponse this prompt systemPrompt options t) =
  fst (getClaudeResponse this prompt systemPrompt options t').
Proof.
  intros E. rewrite !getClaudeResponse_run; simpl. rewrite E.
  destruct (AIService.anthropic this _ _) as [response|error]; [|reflexivity].
  destruct (Anthropic.content response); reflexivity.
Qed.

(** A call that is fulfilled logs nothing. *)
Lemma getOpenAIResponse_fulfilled_quiet (t : Trace) (r : OpenAIResult.t) :
  fst (getOpenAIResponse this prompt systemPrompt options t) = Fulfilled r ->
  logged (snd (getOpenAIResponse this prompt systemPrompt options t)) = logged t.
Proof.
  rewrite getOpenAIResponse_run; simpl.
  destruct (AIService.openai this _ _) as [response|error]; [|discriminate].
  destruct (OpenAI.choices response); [discriminate|reflexivity].
Qed.

End BackendCalls.

(** ** The judge *)

Section Judge.

Variable this : AIService.t.
Variables (openaiResult : OpenAIResult.t) (claudeResult : ClaudeResult.t).
Variables (originalPrompt : string) (criteria : option string).

Local Abbreviation evaluate :=
  (evaluation_call this openaiResult claudeResult originalPrompt criteria).
Local Abbreviation verdict := (parsed_selection openaiResult claudeResult).

(** What a run of [selectBestResponse] amounts to. *)
Lemma selectBestResponse_run (t : Trace) :
  selectBestResponse this openaiResult claudeResult originalPrompt criteria t =
  match evaluate t with
  | (Rejected error, t1) => (Fulfilled (default_selection claudeResult), warned error t1)
  | (Fulfilled evaluation, t1) =>
      match JSON.parse (to_text (OpenAIResult.content evaluation)) with
      | None =>
          (Fulfilled (default_selection claudeResult),
           warned (SyntaxError ("Unexpected token in JSON: "
                                ++ to_text (OpenAIResult.content evaluation))) t1)
      | Some parsed =>
          match get_prop parsed "selected" with
          | Rejected error => (Fulfilled (default_selection claudeResult), warned error t1)
          | Fulfilled _ => (Fulfilled (verdict parsed), t1)
          end
      end
  end.
Proof.
  unfold selectBestResponse, try_catch, bind.
  change (getOpenAIResponse this _ _ _ t) with (evaluate t).
  destruct (evaluate t) as [[evaluation|error] t1]; [|reflexivity].
  unfold JSON_parse.
  destruct (JSON.parse _) as [parsed|]; [|reflexivity].
  destruct parsed; reflexivity.
Qed.

(** The judge never rejects. *)
Lemma selectBestResponse_settles (t : Trace) :
  exists outcome,
    fst (selectBestResponse this openaiResult claudeResult originalPrompt criteria t)
    = Fulfilled outcome.
Proof.
  rewrite selectBestResponse_run.
  destruct (evaluate t) as [[evaluation|error] t1]; [|eexists; reflexivity].
  destruct (JSON.parse _) as [parsed|]; [|eexists; reflexivity].
  destruct (get_prop parsed "selected"); eexists; reflexivity.
Qed.

(** It hands one more request to the OpenAI client, the evaluation
    request, and none to the Anthropic client. *)
Lemma selectBestResponse_requests (t : Trace) :
  let t' := snd (selectBestResponse this openaiResult claudeResult originalPrompt criteria t) in
  openai_requests t' =
    (openai_requests t ++
     [openai_request this
        (selectionPrompt openaiResult claudeResult originalPrompt criteria)
        evaluator_instruction evaluation_options])%list
  /\ anthropic_requests t' = anthropic_requests t.
Proof.
  simpl. rewrite selectBestResponse_run.
  pose proof (getOpenAIResponse_requests this
                (selectionPrompt openaiResult claudeResult originalPrompt criteria)
                evaluator_instruction evaluation_options t) as H.
  change (getOpenAIResponse this _ _ _ t) with (evaluate t) in H.
  destruct (evaluate t) as [[evaluation|error] t1]; simpl in H; [|exact H].
  destruct (JSON.parse _) as [parsed|]; [|exact H].
  destruct (get_prop parsed "selected"); exact H.
Qed.

(** Whatever the judge answers, the outcome names one of the two
    backends and carries the text of the result it was given for it. *)
Lemma selectBestResponse_winner (t : Trace) (outcome : SelectionOutcome.t) :
  fst (selectBestResponse this openaiResult claudeResult originalPrompt criteria t)
    = Fulfilled outcome ->
  (SelectionOutcome.winner outcome = "openai"
   /\ SelectionOutcome.content outcome = OpenAIResult.content openaiResult)
  \/ (SelectionOutcome.winner outcome = "claude"
      /\ SelectionOutcome.content outcome = ClaudeResult.content claudeResult).
Proof.
  rewrite selectBestResponse_run.
  destruct (evaluate t) as [[evaluation|error] t1]; simpl.
  - destruct (JSON.parse _) as [parsed|]; simpl.
    + destruct (get_prop parsed "selected"); simpl;
        intros H; injection H as <-; [|right; now split].
      unfold parsed_selection; simpl.
      destruct (strict_eq_str _ _); [left|right]; now split.
    + intros H; injection H as <-. right; now split.
  - intros H; injection H as <-. right; now split.
Qed.

(** An unusable evaluation gives the default selection. *)
Lemma selectBestResponse_default (t : Trace) :
  judge_unusable this openaiResult claudeResult originalPrompt criteria t ->
  fst (selectBestResponse this openaiResult claudeResult originalPrompt criteria t)
  = Fulfilled (default_selection claudeResult).
Proof.
  unfold judge_unusable. rewrite selectBestResponse_run.
  destruct (evaluate t) as [[evaluation|error] t1]; simpl; [|reflexivity].
  intros ->. reflexivity.
Qed.

(** A reply that parses to anything but [null] gives the object of the
    [try] block, and nothing is logged. *)
Lemma selectBestResponse_verdict (t : Trace) (evaluation : OpenAIResult.t)
    (parsed : JSValue) :
  fst (evaluate t) = Fulfilled evaluation ->
  JSON.parse (to_text (OpenAIResult.content evaluation)) = Some parsed ->
  parsed <> JNull ->
  fst (selectBestResponse this openaiResult claudeResult originalPrompt criteria t)
    = Fulfilled (verdict parsed)
  /\ logged (snd (selectBestResponse this openaiResult claudeResult originalPrompt criteria t))
    = logged t.
Proof.
  intros Hev Hparse Hnull. rewrite selectBestResponse_run.
  pose proof (getOpenAIResponse_fulfilled_quiet this _ _ _ t evaluation Hev) as Hquiet.
  change (getOpenAIResponse this _ _ _ t) with (evaluate t) in Hquiet.
  destruct (evaluate t) as [[ev|error] t1]; simpl in *; [|discriminate].
  injection Hev as ->. rewrite Hparse.
  rewrite (get_prop_defined parsed "selected"
             (JSONFacts.parse_produced _ _ Hparse) Hnull).
  now split.
Qed.

End Judge.

(** ** The responder *)

Section Responder.

Variable this : AIService.t.
Variables (prompt systemPrompt : string) (options : Options.t).

(** What a run of [getDualAnalysis] amounts to: the OpenAI call, the
    Claude call on the trace the first one left, and the judge when
    [selectBest] is truthy and both calls were fulfilled. *)
Lemma getDualAnalysis_run (t : Trace) :
  getDualAnalysis this prompt systemPrompt options t =
  let (a, t1) := getOpenAIResponse this prompt systemPrompt options t in
  let (b, t2) := getClaudeResponse this prompt systemPrompt options t1 in
  let errors := {| Errors.openai := reason_message a; Errors.claude := reason_message b |} in
  match truthy (Options.selectBest options), a, b with
  | true, Fulfilled openaiResult, Fulfilled claudeResult =>
      match selectBestResponse this openaiResult claudeResult prompt
              (Options.selectionCriteria options) t2 with
      | (Fulfilled selected, t3) =>
          (Fulfilled {| Results.openai := Some openaiResult;
                        Results.claude := Some claudeResult;
                        Results.errors := errors;
                        Results.selected := Some selected |}, t3)
      | (Rejected error, t3) => (Rejected error, t3)
      end
  | _, _, _ =>
      (Fulfilled {| Results.openai := value_or_null a;
                    Results.claude := value_or_null b;
                    Results.errors := errors;
                    Results.selected := None |}, t2)
  end.
Proof.
  unfold getDualAnalysis, allSettled, bind at 1.
  destruct (getOpenAIResponse this prompt systemPrompt options t) as [a t1].
  destruct (getClaudeResponse this prompt systemPrompt options t1) as [b t2].
  destruct (truthy (Options.selectBest options)), a, b; reflexivity.
Qed.

(** The Claude call of [getDualAnalysis] settles as it does on its own:
    what the OpenAI call did before it makes no difference. *)
Lemma claude_call_unaffected (t : Trace) :
  fst (getClaudeResponse this prompt systemPrompt options
         (snd (getOpenAIResponse this prompt systemPrompt options t)))
  = fst (getClaudeResponse this prompt systemPrompt options t).
Proof.
  apply getClaudeResponse_frame.
  apply (getOpenAIResponse_requests this prompt systemPrompt options t).
Qed.

End Responder.

(** Unfold a run of [getDualAnalysis] in the goal into its two backend
    calls: [a] and [b] are how they settled, [t1] and [t2] the traces they
    left; [Hsame] says the Claude call settled as it does on its own, and
    [Ho], [Ha], [Hc], [Hco] say which requests each call added. *)
Ltac run_responder this prompt systemPrompt options t :=
  pose proof (claude_call_unaffected this prompt systemPrompt options t) as Hsame;
  pose proof (getOpenAIResponse_requests this prompt systemPrompt options t) as [Ho Ha];
  rewrite getDualAnalysis_run;
  destruct (getOpenAIResponse this prompt systemPrompt options t) as [a t1]; simpl in *;
  pose proof (getClaudeResponse_requests this prompt systemPrompt options t1) as [Hc Hco];
  destruct (getClaudeResponse this prompt systemPrompt options t1) as [b t2]; simpl in *.

(** ** The judge's fallback *)

(** C1.  When the evaluation call rejects, or the text it returns is not
    JSON, [selectBestResponse] is fulfilled (the error is not propagated)
    with the outcome that names [claude], carries Claude's text, has the
    rationale [Default selection due to evaluation error] and has no
    [scores] key.  The outcome is a function of Claude's result alone: any
    other invocation with an unusable evaluation, whatever the service, the
    prompt, the OpenAI result or the reply, gives the same outcome. *)
Theorem selectBestResponse_fallback
    (this : AIService.t) (openaiResult : OpenAIResult.t) (claudeResult : ClaudeResult.t)
    (originalPrompt : string) (criteria : option string) (t : Trace) :
  judge_unusable this openaiResult claudeResult originalPrompt criteria t ->
  fst (selectBestResponse this openaiResult claudeResult originalPrompt criteria t)
  = Fulfilled {| SelectionOutcome.winner := "claude";
                 SelectionOutcome.content := ClaudeResult.content claudeResult;
                 SelectionOutcome.reasoning := JStr "Default selection due to evaluation error";
                 SelectionOutcome.scores := None |}
  /\ forall this' openaiResult' originalPrompt' criteria' t',
       judge_unusable this' openaiResult' claudeResult originalPrompt' criteria' t' ->
       fst (selectBestResponse this' openaiResult' claudeResult originalPrompt' criteria' t')
       = fst (selectBestResponse this openaiResult claudeResult originalPrompt criteria t).
Proof.
  intros H. split.
  - exact (selectBestResponse_default _ _ _ _ _ _ H).
  - intros this' openaiResult' originalPrompt' criteria' t' H'.
    rewrite (selectBestResponse_default _ _ _ _ _ _ H).
    exact (selectBestResponse_default _ _ _ _ _ _ H').
Qed.

(** ** The responder's result *)

(** C2.  When the OpenAI call fails and the Claude call is fulfilled,
    [getDualAnalysis] is fulfilled with Claude's result in the [claude]
    slot, [null] in the [openai] slot, the failure's message under
    [errors.openai] and no [errors.claude]; the Claude request was issued
    and its result is the one the Claude call gives on its own.  The same
    holds with the two backends exchanged. *)
Theorem getDualAnalysis_independence
    (this : AIService.t) (prompt systemPrompt : string) (options : Options.t) (t : Trace) :
  (forall error claudeResult,
      fst (getOpenAIResponse this prompt systemPrompt options t) = Rejected error ->
      fst (getClaudeResponse this prompt systemPrompt options t) = Fulfilled claudeResult ->
      fst (getDualAnalysis this prompt systemPrompt options t)
      = Fulfilled {| Results.openai := None;
                     Results.claude := Some claudeResult;
                     Results.errors := {| Errors.openai := Some (JSError.message error);
                                          Errors.claude := None |};
                     Results.selected := None |}
      /\ anthropic_requests (snd (getDualAnalysis this prompt systemPrompt options t))
         = (anthropic_requests t ++ [claude_request prompt systemPrompt options])%list)
  /\ (forall openaiResult error,
      fst (getOpenAIResponse this prompt systemPrompt options t) = Fulfilled openaiResult ->
      fst (getClaudeResponse this prompt systemPrompt options t) = Rejected error ->
      fst (getDualAnalysis this prompt systemPrompt options t)
      = Fulfilled {| Results.openai := Some openaiResult;
                     Results.claude := None;
                     Results.errors := {| Errors.openai := None;
                                          Errors.claude := Some (JSError.message error) |};
                     Results.selected := None |}
      /\ openai_requests (snd (getDualAnalysis this prompt systemPrompt options t))
         = (openai_requests t ++ [openai_request this prompt systemPrompt options])%list).
Proof.
  run_responder this prompt systemPrompt options t.
  split.
  - intros error claudeResult -> Hb. rewrite Hsame, Hb.
    destruct (truthy (Options.selectBest options)); simpl;
      (split; [reflexivity | now rewrite Hc, Ha]).
  - intros openaiResult error -> Hb. rewrite Hsame, Hb.
    destruct (truthy (Options.selectBest options)); simpl;
      (split; [reflexivity | now rewrite Hco, Ho]).
Qed.

(** C4.  When both backend calls fail, [getDualAnalysis] is still
    fulfilled: both result slots are [null] and [errors] holds one entry
    per backend, each with that backend's failure message. *)
Theorem getDualAnalysis_both_fail
    (this : AIService.t) (prompt systemPrompt : string) (options : Options.t) (t : Trace)
    (openaiError claudeError : JSError.t) :
  fst (getOpenAIResponse this prompt systemPrompt options t) = Rejected openaiError ->
  fst (getClaudeResponse this prompt systemPrompt options t) = Rejected claudeError ->
  fst (getDualAnalysis this prompt systemPrompt options t)
  = Fulfilled {| Results.openai := None;
                 Results.claude := None;
                 Results.errors :=
                   {| Errors.openai := Some (JSError.message openaiError);
                      Errors.claude := Some (JSError.message claudeError) |};
                 Results.selected := None |}.
Proof.
  run_responder this prompt systemPrompt options t.
  intros -> Hb. rewrite Hsame, Hb.
  destruct (truthy (Options.selectBest options)); reflexivity.
Qed.

(** C3.  With [selectBest] set, [getDualAnalysis] is fulfilled and its
    result has a [selected] key exactly when both backend calls were
    fulfilled; the key then holds what [selectBestResponse] returned for
    the two results.  Without the key, the OpenAI client has seen the
    generation request and nothing else: the judge was not invoked. *)
Theorem getDualAnalysis_selects_iff_both
    (this : AIService.t) (prompt systemPrompt : string) (options : Options.t) (t : Trace) :
  truthy (Options.selectBest options) = true ->
  exists results,
    fst (getDualAnalysis this prompt systemPrompt options t) = Fulfilled results
    /\ (Results.selected results <> None <->
        (exists openaiResult,
            fst (getOpenAIResponse this prompt systemPrompt options t) = Fulfilled openaiResult)
        /\ (exists claudeResult,
            fst (getClaudeResponse this prompt systemPrompt options t) = Fulfilled claudeResult))
    /\ (forall openaiResult claudeResult,
           fst (getOpenAIResponse this prompt systemPrompt options t) = Fulfilled openaiResult ->
           fst (getClaudeResponse this prompt systemPrompt options t) = Fulfilled claudeResult ->
           Results.selected results
           = value_or_null
               (fst (selectBestResponse this openaiResult claudeResult prompt
                       (Options.selectionCriteria options)
                       (snd (getClaudeResponse this prompt systemPrompt options
                               (snd (getOpenAIResponse this prompt systemPrompt options t)))))))
    /\ (Results.selected results = None ->
        openai_requests (snd (getDualAnalysis this prompt systemPrompt options t))
        = (openai_requests t ++ [openai_request this prompt systemPrompt options])%list).
Proof.
  intros Hbest.
  run_responder this prompt systemPrompt options t. rewrite Hbest.
  rewrite <- Hsame.
  destruct a as [openaiResult|openaiError], b as [claudeResult|claudeError].
  - destruct (selectBestResponse_settles this openaiResult claudeResult prompt
                (Options.selectionCriteria options) t2) as [outcome Hout].
    destruct (selectBestResponse this openaiResult claudeResult prompt
                (Options.selectionCriteria options) t2) as [judged t3] eqn:Ejudge.
    simpl in Hout. subst judged. eexists. split; [reflexivity|]. simpl.
    split; [|split].
    + split; [intros _; split; eexists; reflexivity | discriminate].
    + intros o c Eo Ec. injection Eo as <-. injection Ec as <-.
      now rewrite Ejudge.
    + discriminate.
  - eexists. split; [reflexivity|]. simpl. split; [|split].
    + split; [intros Hne; now contradiction Hne | intros [_ [c Hcl]]; discriminate].
    + intros o c _ Ec. discriminate.
    + intros _. now rewrite Hco.
  - eexists. split; [reflexivity|]. simpl. split; [|split].
    + split; [intros Hne; now contradiction Hne | intros [[o Hop] _]; discriminate].
    + intros o c Eo _. discriminate.
    + intros _. now rewrite Hco.
  - eexists. split; [reflexivity|]. simpl. split; [|split].
    + split; [intros Hne; now contradiction Hne | intros [[o Hop] _]; discriminate].
    + intros o c Eo _. discriminate.
    + intros _. now rewrite Hco.
Qed.

(** C8.  A [selected] outcome in the result of [getDualAnalysis] names
    [openai] or [claude], and the backend it names was fulfilled in this
    call: its result sits in the matching slot and the outcome's content is
    that result's text. *)
Theorem selection_names_a_fulfilled_backend
    (this : AIService.t) (prompt systemPrompt : string) (options : Options.t) (t : Trace)
    (results : Results.t) (outcome : SelectionOutcome.t) :
  fst (getDualAnalysis this prompt systemPrompt options t) = Fulfilled results ->
  Results.selected results = Some outcome ->
  (SelectionOutcome.winner outcome = "openai"
   /\ exists openaiResult,
       fst (getOpenAIResponse this prompt systemPrompt options t) = Fulfilled openaiResult
       /\ Results.openai results = Some openaiResult
       /\ SelectionOutcome.content outcome = OpenAIResult.content openaiResult)
  \/ (SelectionOutcome.winner outcome = "claude"
      /\ exists claudeResult,
          fst (getClaudeResponse this prompt systemPrompt options t) = Fulfilled claudeResult
          /\ Results.claude results = Some claudeResult
          /\ SelectionOutcome.content outcome = ClaudeResult.content claudeResult).
Proof.
  run_responder this prompt systemPrompt options t.
  rewrite <- Hsame.
  destruct (truthy (Options.selectBest options)), a as [openaiResult|?], b as [claudeResult|?];
    simpl; try (intros H; injection H as <-; discriminate).
  pose proof (selectBestResponse_winner this openaiResult claudeResult prompt
                (Options.selectionCriteria options) t2) as Hwin.
  destruct (selectBestResponse this openaiResult claudeResult prompt
              (Options.selectionCriteria options) t2) as [[judged|error] t3];
    simpl in *; [|discriminate].
  intros H; injection H as <-. simpl. intros H; injection H as <-.
  destruct (Hwin judged eq_refl) as [[Hwinner Htext]|[Hwinner Htext]]; [left|right];
    (split; [exact Hwinner | eexists; repeat split; exact Htext]).
Qed.

(** ** The judge's verdict *)

(** C5.  When the evaluation call is fulfilled and its text parses, a
    reply whose [selected] is the string [A] gives the outcome that names
    [openai], carries the OpenAI result's text as it is, and holds the
    reply's [reasoning] and [scores] unchanged; a reply whose [selected] is
    [B] gives the same with [claude] and Claude's text. *)
Theorem selectBestResponse_passes_verdict_through
    (this : AIService.t) (openaiResult : OpenAIResult.t) (claudeResult : ClaudeResult.t)
    (originalPrompt : string) (criteria : option string) (t : Trace)
    (evaluation : OpenAIResult.t) (parsed : JSValue) :
  fst (evaluation_call this openaiResult claudeResult originalPrompt criteria t)
    = Fulfilled evaluation ->
  JSON.parse (to_text (OpenAIResult.content evaluation)) = Some parsed ->
  (prop parsed "selected" = JStr "A" ->
   fst (selectBestResponse this openaiResult claudeResult originalPrompt criteria t)
   = Fulfilled {| SelectionOutcome.winner := "openai";
                  SelectionOutcome.content := OpenAIResult.content openaiResult;
                  SelectionOutcome.reasoning := prop parsed "reasoning";
                  SelectionOutcome.scores := Some (prop parsed "scores") |})
  /\ (prop parsed "selected" = JStr "B" ->
      fst (selectBestResponse this openaiResult claudeResult originalPrompt criteria t)
      = Fulfilled {| SelectionOutcome.winner := "claude";
                     SelectionOutcome.content := ClaudeResult.content claudeResult;
                     SelectionOutcome.reasoning := prop parsed "reasoning";
                     SelectionOutcome.scores := Some (prop parsed "scores") |}).
Proof.
  intros Hev Hparse.
  split; intros Hsel;
    destruct (prop_string_defined _ _ _ Hsel) as [_ Hnull];
    destruct (selectBestResponse_verdict this openaiResult claudeResult originalPrompt
                criteria t evaluation parsed Hev Hparse Hnull) as [-> _];
    unfold parsed_selection; rewrite Hsel; reflexivity.
Qed.

(** C9, amended.  When the evaluation call is fulfilled and its text
    parses to a JSON value other than [null], [selectBestResponse] returns
    the object of its [try] block: the winner is [openai] exactly when the
    reply's [selected] is the string [A]; for every other reply the winner
    is [claude] with Claude's text; [reasoning] and [scores] are the reply's
    properties as they are, [undefined] when absent; and the [catch] block
    is not entered, so nothing is logged. *)
Theorem selectBestResponse_parsed_reply
    (this : AIService.t) (openaiResult : OpenAIResult.t) (claudeResult : ClaudeResult.t)
    (originalPrompt : string) (criteria : option string) (t : Trace)
    (evaluation : OpenAIResult.t) (parsed : JSValue) :
  fst (evaluation_call this openaiResult claudeResult originalPrompt criteria t)
    = Fulfilled evaluation ->
  JSON.parse (to_text (OpenAIResult.content evaluation)) = Some parsed ->
  parsed <> JNull ->
  exists outcome,
    fst (selectBestResponse this openaiResult claudeResult originalPrompt criteria t)
      = Fulfilled outcome
    /\ (SelectionOutcome.winner outcome = "openai" <-> prop parsed "selected" = JStr "A")
    /\ (prop parsed "selected" = JStr "A" ->
        SelectionOutcome.content outcome = OpenAIResult.content openaiResult)
    /\ (prop parsed "selected" <> JStr "A" ->
        SelectionOutcome.winner outcome = "claude"
        /\ SelectionOutcome.content outcome = ClaudeResult.content claudeResult)
    /\ SelectionOutcome.reasoning outcome = prop parsed "reasoning"
    /\ SelectionOutcome.scores outcome = Some (prop parsed "scores")
    /\ logged (snd (selectBestResponse this openaiResult claudeResult originalPrompt criteria t))
       = logged t.
Proof.
  intros Hev Hparse Hnull.
  destruct (selectBestResponse_verdict this openaiResult claudeResult originalPrompt
              criteria t evaluation parsed Hev Hparse Hnull) as [Hout Hlog].
  exists (parsed_selection openaiResult claudeResult parsed).
  split; [exact Hout|]. unfold parsed_selection; simpl.
  pose proof (strict_eq_str_true (prop parsed "selected") "A") as Hiff.
  destruct (strict_eq_str (prop parsed "selected") "A").
  - assert (Hsel : prop parsed "selected" = JStr "A") by now apply Hiff.
    split; [now split|]. split; [reflexivity|].
    split; [intros Hne; contradiction|]. now repeat split.
  - assert (Hsel : prop parsed "selected" <> JStr "A").
    { intros H. apply Hiff in H. discriminate. }
    split; [split; [discriminate | intros H; contradiction]|].
    split; [intros H; contradiction|]. now repeat split.
Qed.

(** ** The requests *)

Lemma append_assoc (a b c : string) : (a ++ b) ++ c = a ++ b ++ c.
Proof. induction a as [|x a IH]; simpl; [reflexivity | now rewrite IH]. Qed.

Lemma embeds_after (before text part : string) :
  embeds text part -> embeds (before ++ text) part.
Proof.
  intros [b [a ->]]. exists (before ++ b), a.
  now rewrite append_assoc.
Qed.

(** C7.  [selectBestResponse] hands the OpenAI client one request, whose
    sampling temperature is 0.3, below the 0.7 of an ordinary generation
    call, and whose user message is the evaluation prompt; when no criteria
    are supplied, that prompt embeds the default criteria
    [accuracy, helpfulness, clarity, completeness]. *)
Theorem selectBestResponse_evaluation_request
    (this : AIService.t) (openaiResult : OpenAIResult.t) (claudeResult : ClaudeResult.t)
    (originalPrompt : string) (t : Trace) :
  (forall criteria, exists request,
      openai_requests
        (snd (selectBestResponse this openaiResult claudeResult originalPrompt criteria t))
      = (openai_requests t ++ [request])%list
      /\ request_field request "temperature" = Some (JNum (3 # 10))
      /\ (forall prompt systemPrompt,
             request_field (openai_request this prompt systemPrompt Options.empty)
                           "temperature"
             = Some (JNum (7 # 10)))
      /\ (3 # 10 < 7 # 10)%Q
      /\ request_field request "messages"
         = Some (JArr [ JObj [("role", JStr "system");
                              ("content", JStr "You are an impartial AI evaluator. Respond only with valid JSON.")];
                        JObj [("role", JStr "user");
                              ("content",
                               JStr (selectionPrompt openaiResult claudeResult
                                       originalPrompt criteria))] ]))
  /\ embeds (selectionPrompt openaiResult claudeResult originalPrompt None)
            "Evaluation Criteria: accuracy, helpfulness, clarity, completeness".
Proof.
  split.
  - intros criteria. eexists. split.
    + apply (selectBestResponse_requests this openaiResult claudeResult originalPrompt
               criteria t).
    + repeat split; reflexivity.
  - unfold selectionPrompt, or_literal, default_criteria.
    do 6 apply embeds_after.
    exists (String "010" (String "010" EmptyString)). eexists.
    simpl. reflexivity.
Qed.

(** The requests [getDualAnalysis] issues: the generation request to the
    OpenAI client, then at most the evaluation request; one request to the
    Anthropic client. *)
Lemma getDualAnalysis_requests
    (this : AIService.t) (prompt systemPrompt : string) (options : Options.t) (t : Trace) :
  exists later,
    openai_requests (snd (getDualAnalysis this prompt systemPrompt options t))
    = (openai_requests t ++ openai_request this prompt systemPrompt options :: later)%list
    /\ anthropic_requests (snd (getDualAnalysis this prompt systemPrompt options t))
       = (anthropic_requests t ++ [claude_request prompt systemPrompt options])%list.
Proof.
  run_responder this prompt systemPrompt options t.
  assert (Hplain :
    exists later,
      openai_requests t2
      = (openai_requests t ++ openai_request this prompt systemPrompt options :: later)%list
      /\ anthropic_requests t2
         = (anthropic_requests t ++ [claude_request prompt systemPrompt options])%list).
  { exists []. now rewrite Hco, Ho, Hc, Ha. }
  destruct (truthy (Options.selectBest options)), a as [openaiResult|?], b as [claudeResult|?];
    try exact Hplain.
  pose proof (selectBestResponse_requests this openaiResult claudeResult prompt
                (Options.selectionCriteria options) t2) as [Hjo Hja].
  destruct (selectBestResponse this openaiResult claudeResult prompt
              (Options.selectionCriteria options) t2) as [[judged|error] t3]; simpl in *;
    (eexists; split; [rewrite Hjo, Hco, Ho, <- app_assoc; reflexivity
                     | now rewrite Hja, Hc, Ha]).
Qed.

(** C6, amended.  In every call of [getDualAnalysis] the OpenAI request
    carries the caller's temperature and [maxTokens] when they are truthy
    and 0.7 and 2000 otherwise, so also when the options omit them; the
    Claude request carries [max_tokens] under the same rule.  Both requests
    carry the system instruction, the user prompt and a model name, the
    OpenAI one as two messages, the Claude one as [system] and one
    message. *)
Theorem backend_requests_sampling
    (this : AIService.t) (prompt systemPrompt : string) (options : Options.t) (t : Trace) :
  exists openaiRequest later claudeRequest,
    openai_requests (snd (getDualAnalysis this prompt systemPrompt options t))
    = (openai_requests t ++ openaiRequest :: later)%list
    /\ anthropic_requests (snd (getDualAnalysis this prompt systemPrompt options t))
       = (anthropic_requests t ++ [claudeRequest])%list
    /\ request_field openaiRequest "temperature"
       = Some (if truthy (Options.temperature options)
               then Options.temperature options else JNum (7 # 10))
    /\ request_field openaiRequest "max_tokens"
       = Some (if truthy (Options.maxTokens options)
               then Options.maxTokens options else JNum 2000)
    /\ request_field claudeRequest "max_tokens"
       = Some (if truthy (Options.maxTokens options)
               then Options.maxTokens options else JNum 2000)
    /\ (Options.temperature options = JUndefined ->
        request_field openaiRequest "temperature" = Some (JNum (7 # 10)))
    /\ (Options.maxTokens options = JUndefined ->
        request_field openaiRequest "max_tokens" = Some (JNum 2000)
        /\ request_field claudeRequest "max_tokens" = Some (JNum 2000))
    /\ request_field openaiRequest "messages"
       = Some (JArr [ JObj [("role", JStr "system"); ("content", JStr systemPrompt)];
                      JObj [("role", JStr "user"); ("content", JStr prompt)] ])
    /\ request_field claudeRequest "system" = Some (JStr systemPrompt)
    /\ request_field claudeRequest "messages"
       = Some (JArr [ JObj [("role", JStr "user"); ("content", JStr prompt)] ])
    /\ request_field openaiRequest "model"
       = Some (js_or (js_or (AIService.fineTunedModel this) (Options.model options))
                     (JStr "gpt-4-turbo-preview"))
    /\ request_field claudeRequest "model"
       = Some (js_or (Options.model options) (JStr "claude-3-5-sonnet-20241022")).
Proof.
  destruct (getDualAnalysis_requests this prompt systemPrompt options t) as [later [Ho Hc]].
  exists (openai_request this prompt systemPrompt options), later,
         (claude_request prompt systemPrompt options).
  split; [exact Ho|]. split; [exact Hc|].
  split; [reflexivity|]. split; [reflexivity|]. split; [reflexivity|].
  split; [intros E; simpl; unfold js_or; now rewrite E|].
  split; [intros E; simpl; unfold js_or; now rewrite E|].
  repeat split; reflexivity.
Qed.

(** C10.  A falsy temperature in the options, such as 0, makes
    [getOpenAIResponse] send temperature 0.7, and a falsy [maxTokens], such
    as 0, makes both [getOpenAIResponse] and [getClaudeResponse] send
    [max_tokens] 2000: the defaults replace every falsy value, not only an
    absent one. *)
Theorem falsy_options_take_defaults
    (this : AIService.t) (prompt systemPrompt : string) (options : Options.t) (t : Trace) :
  (truthy (Options.temperature options) = false ->
   exists request,
     openai_requests (snd (getOpenAIResponse this prompt systemPrompt options t))
     = (openai_requests t ++ [request])%list
     /\ request_field request "temperature" = Some (JNum (7 # 10)))
  /\ (truthy (Options.maxTokens options) = false ->
      (exists request,
          openai_requests (snd (getOpenAIResponse this prompt systemPrompt options t))
          = (openai_requests t ++ [request])%list
          /\ request_field request "max_tokens" = Some (JNum 2000))
      /\ (exists request,
          anthropic_requests (snd (getClaudeResponse this prompt systemPrompt options t))
          = (anthropic_requests t ++ [request])%list
          /\ request_field request "max_tokens" = Some (JNum 2000))).
Proof.
  pose proof (getOpenAIResponse_requests this prompt systemPrompt options t) as [Ho _].
  pose proof (getClaudeResponse_requests this prompt systemPrompt options t) as [Hc _].
  split.
  - intros E. eexists. split; [exact Ho|]. simpl. unfold js_or. now rewrite E.
  - intros E. split; eexists; (split; [eassumption|]); simpl; unfold js_or; now rewrite E.
Qed.

(** * The properties at concrete runs *)

Import Stubs.

(** C1 where the judge answers with prose, and a second run where the
    evaluation call itself fails: both give the same default outcome. *)
Lemma selectBestResponse_fallback_witness :
  judge_unusable (judge_replying (Some "I would pick A.")) gpt_result claude_result
                 "Summarise the chart" None empty_trace
  /\ fst (selectBestResponse (judge_replying (Some "I would pick A.")) gpt_result
            claude_result "Summarise the chart" None empty_trace)
     = Fulfilled {| SelectionOutcome.winner := "claude";
                    SelectionOutcome.content := Some "from claude";
                    SelectionOutcome.reasoning :=
                      JStr "Default selection due to evaluation error";
                    SelectionOutcome.scores := None |}
  /\ fst (selectBestResponse both_down gpt_result claude_result "Another prompt"
            (Some "clinical accuracy") empty_trace)
     = fst (selectBestResponse (judge_replying (Some "I would pick A.")) gpt_result
              claude_result "Summarise the chart" None empty_trace).
Proof.
  assert (H : judge_unusable (judge_replying (Some "I would pick A.")) gpt_result
                claude_result "Summarise the chart" None empty_trace)
    by (vm_compute; reflexivity).
  split; [exact H|]. split.
  - exact (proj1 (selectBestResponse_fallback _ _ _ _ _ _ H)).
  - apply (proj2 (selectBestResponse_fallback _ _ _ _ _ _ H)).
    vm_compute. exact I.
Defined.

(** C2 with a rejected API key on the OpenAI side, then with an overloaded
    Claude. *)
Lemma getDualAnalysis_independence_witness :
  fst (getDualAnalysis openai_down "p" "s" select_best empty_trace)
  = Fulfilled {| Results.openai := None;
                 Results.claude := Some claude_result;
                 Results.errors :=
                   {| Errors.openai := Some "401 Incorrect API key provided";
                      Errors.claude := None |};
                 Results.selected := None |}
  /\ fst (getDualAnalysis claude_down "p" "s" select_best empty_trace)
     = Fulfilled {| Results.openai := Some gpt_result;
                    Results.claude := None;
                    Results.errors :=
                      {| Errors.openai := None;
                         Errors.claude := Some "529 Overloaded" |};
                    Results.selected := None |}.
Proof.
  split.
  - apply (proj1 (getDualAnalysis_independence openai_down "p" "s" select_best empty_trace)
             (APIError "401 Incorrect API key provided") claude_result);
      vm_compute; reflexivity.
  - apply (proj2 (getDualAnalysis_independence claude_down "p" "s" select_best empty_trace)
             gpt_result (APIError "529 Overloaded"));
      vm_compute; reflexivity.
Defined.

(** C4 with a rate-limited OpenAI and an overloaded Claude. *)
Lemma getDualAnalysis_both_fail_witness :
  fst (getDualAnalysis both_down "p" "s" select_best empty_trace)
  = Fulfilled {| Results.openai := None;
                 Results.claude := None;
                 Results.errors :=
                   {| Errors.openai := Some "429 Rate limit reached";
                      Errors.claude := Some "529 Overloaded" |};
                 Results.selected := None |}.
Proof.
  apply (getDualAnalysis_both_fail both_down "p" "s" select_best empty_trace
           (APIError "429 Rate limit reached") (APIError "529 Overloaded"));
    vm_compute; reflexivity.
Defined.

(** C3 with Claude down, where nothing is selected and the OpenAI client
    sees one request, and with both backends up, where an outcome is
    attached. *)
Lemma getDualAnalysis_selects_iff_both_witness :
  truthy (Options.selectBest select_best) = true
  /\ (exists results,
       fst (getDualAnalysis claude_down "p" "s" select_best empty_trace) = Fulfilled results
       /\ Results.selected results = None
       /\ openai_requests (snd (getDualAnalysis claude_down "p" "s" select_best empty_trace))
          = [openai_request claude_down "p" "s" select_best])
  /\ (exists results outcome,
       fst (getDualAnalysis (both_up verdict_A) "p" "s" select_best empty_trace)
         = Fulfilled results
       /\ Results.selected results = Some outcome).
Proof.
  split; [reflexivity|]. split.
  - destruct (getDualAnalysis_selects_iff_both claude_down "p" "s" select_best empty_trace
                eq_refl) as (results & Hres & Hiff & _ & Hquiet).
    assert (Hnone : Results.selected results = None).
    { destruct (Results.selected results) as [outcome|] eqn:E; [|reflexivity].
      assert (Hne : Some outcome <> None) by discriminate.
      destruct (proj1 Hiff Hne) as [_ [c Hc]].
      vm_compute in Hc. discriminate. }
    exists results. split; [exact Hres|]. split; [exact Hnone|]. exact (Hquiet Hnone).
  - destruct (getDualAnalysis_selects_iff_both (both_up verdict_A) "p" "s" select_best
                empty_trace eq_refl) as (results & Hres & Hiff & _ & _).
    destruct (Results.selected results) as [outcome|] eqn:E.
    + exists results, outcome. now split.
    + exfalso. apply (proj2 Hiff); [|reflexivity].
      split; eexists; vm_compute; reflexivity.
Defined.

(** C8 on a run where both backends answer and the judge picks [A]. *)
Lemma selection_names_a_fulfilled_backend_witness :
  exists results outcome,
    fst (getDualAnalysis (both_up verdict_A) "p" "s" select_best empty_trace)
      = Fulfilled results
    /\ Results.selected results = Some outcome
    /\ ((SelectionOutcome.winner outcome = "openai"
         /\ exists openaiResult,
             fst (getOpenAIResponse (both_up verdict_A) "p" "s" select_best empty_trace)
               = Fulfilled openaiResult
             /\ Results.openai results = Some openaiResult
             /\ SelectionOutcome.content outcome = OpenAIResult.content openaiResult)
        \/ (SelectionOutcome.winner outcome = "claude"
            /\ exists claudeResult,
                fst (getClaudeResponse (both_up verdict_A) "p" "s" select_best empty_trace)
                  = Fulfilled claudeResult
                /\ Results.claude results = Some claudeResult
                /\ SelectionOutcome.content outcome = ClaudeResult.content claudeResult)).
Proof.
  eexists. eexists.
  split; [vm_compute; reflexivity|]. split; [reflexivity|].
  eapply (selection_names_a_fulfilled_backend (both_up verdict_A) "p" "s" select_best
            empty_trace); vm_compute; reflexivity.
Defined.

(** C5 on a reply that selects [A] and one that selects [B]. *)
Lemma selectBestResponse_passes_verdict_through_witness :
  fst (selectBestResponse (judge_replying (Some verdict_A)) gpt_result claude_result
         "p" None empty_trace)
  = Fulfilled {| SelectionOutcome.winner := "openai";
                 SelectionOutcome.content := Some "from gpt";
                 SelectionOutcome.reasoning := JStr "clearer";
                 SelectionOutcome.scores :=
                   Some (JObj [ ("A", JObj [("accuracy", JNum 9); ("helpfulness", JNum 8);
                                            ("clarity", JNum 9)]);
                                ("B", JObj [("accuracy", JNum 7); ("helpfulness", JNum 8);
                                            ("clarity", JNum 6)]) ]) |}
  /\ fst (selectBestResponse (judge_replying (Some verdict_B)) gpt_result claude_result
            "p" None empty_trace)
     = Fulfilled {| SelectionOutcome.winner := "claude";
                    SelectionOutcome.content := Some "from claude";
                    SelectionOutcome.reasoning := JStr "more complete";
                    SelectionOutcome.scores :=
                      Some (JObj [ ("A", JObj [("accuracy", JNum 6); ("helpfulness", JNum 6);
                                               ("clarity", JNum 7)]);
                                   ("B", JObj [("accuracy", JNum 9); ("helpfulness", JNum 9);
                                               ("clarity", JNum 8)]) ]) |}.
Proof.
  split.
  - assert (Hev : fst (evaluation_call (judge_replying (Some verdict_A)) gpt_result
                         claude_result "p" None empty_trace)
                  = Fulfilled {| OpenAIResult.content := Some verdict_A;
                                 OpenAIResult.model := JStr "gpt-4-turbo-preview";
                                 OpenAIResult.usage :=
                                   JObj [("prompt_tokens", JNum 12);
                                         ("completion_tokens", JNum 34)];
                                 OpenAIResult.finishReason := JStr "stop" |})
      by (vm_compute; reflexivity).
    assert (Hparse : JSON.parse verdict_A
                     = Some (JObj [ ("selected", JStr "A"); ("reasoning", JStr "clearer");
                                    ("scores",
                                     JObj [ ("A", JObj [("accuracy", JNum 9);
                                                        ("helpfulness", JNum 8);
                                                        ("clarity", JNum 9)]);
                                            ("B", JObj [("accuracy", JNum 7);
                                                        ("helpfulness", JNum 8);
                                                        ("clarity", JNum 6)]) ]) ]))
      by (vm_compute; reflexivity).
    exact (proj1 (selectBestResponse_passes_verdict_through _ _ _ _ _ _ _ _ Hev Hparse)
                 eq_refl).
  - assert (Hev : fst (evaluation_call (judge_replying (Some verdict_B)) gpt_result
                         claude_result "p" None empty_trace)
                  = Fulfilled {| OpenAIResult.content := Some verdict_B;
                                 OpenAIResult.model := JStr "gpt-4-turbo-preview";
                                 OpenAIResult.usage :=
                                   JObj [("prompt_tokens", JNum 12);
                                         ("completion_tokens", JNum 34)];
                                 OpenAIResult.finishReason := JStr "stop" |})
      by (vm_compute; reflexivity).
    assert (Hparse : JSON.parse verdict_B
                     = Some (JObj [ ("selected", JStr "B");
                                    ("reasoning", JStr "more complete");
                                    ("scores",
                                     JObj [ ("A", JObj [("accuracy", JNum 6);
                                                        ("helpfulness", JNum 6);
                                                        ("clarity", JNum 7)]);
                                            ("B", JObj [("accuracy", JNum 9);
                                                        ("helpfulness", JNum 9);
                                                        ("clarity", JNum 8)]) ]) ]))
      by (vm_compute; reflexivity).
    exact (proj2 (selectBestResponse_passes_verdict_through _ _ _ _ _ _ _ _ Hev Hparse)
                 eq_refl).
Defined.

(** C9, as stated, fails for the reply [null].  The text parses, to the
    JSON value [null]; reading [selected] of it throws, the [catch] block
    runs, and the outcome is the default one, with the fixed rationale, no
    [scores] key and a logged warning, where the claim has the object of
    the [try] block with the reply's absent [reasoning] and [scores]. *)
Lemma null_reply_takes_the_fallback :
  JSON.parse "null" = Some JNull
  /\ fst (evaluation_call (judge_replying (Some "null")) gpt_result claude_result
            "p" None empty_trace)
     = Fulfilled {| OpenAIResult.content := Some "null";
                    OpenAIResult.model := JStr "gpt-4-turbo-preview";
                    OpenAIResult.usage :=
                      JObj [("prompt_tokens", JNum 12); ("completion_tokens", JNum 34)];
                    OpenAIResult.finishReason := JStr "stop" |}
  /\ fst (selectBestResponse (judge_replying (Some "null")) gpt_result claude_result
            "p" None empty_trace)
     = Fulfilled {| SelectionOutcome.winner := "claude";
                    SelectionOutcome.content := Some "from claude";
                    SelectionOutcome.reasoning :=
                      JStr "Default selection due to evaluation error";
                    SelectionOutcome.scores := None |}
  /\ fst (selectBestResponse (judge_replying (Some "null")) gpt_result claude_result
            "p" None empty_trace)
     <> Fulfilled {| SelectionOutcome.winner := "claude";
                     SelectionOutcome.content := Some "from claude";
                     SelectionOutcome.reasoning := prop JNull "reasoning";
                     SelectionOutcome.scores := Some (prop JNull "scores") |}
  /\ logged (snd (selectBestResponse (judge_replying (Some "null")) gpt_result claude_result
                    "p" None empty_trace))
     = [LogWarn "Response selection failed, defaulting to Claude:"
                "Cannot read properties of null (reading 'selected')"].
Proof.
  split; [vm_compute; reflexivity|].
  split; [vm_compute; reflexivity|].
  split; [vm_compute; reflexivity|].
  split; [vm_compute; discriminate|].
  vm_compute; reflexivity.
Qed.

(** The amended C9 at the replies [42] and [{'selected': 'a'}]: neither
    selects [A], both give [claude] from the [try] block. *)
Lemma selectBestResponse_parsed_reply_witness :
  (exists outcome,
      fst (selectBestResponse (judge_replying (Some "42")) gpt_result claude_result
             "p" None empty_trace) = Fulfilled outcome
      /\ SelectionOutcome.winner outcome = "claude"
      /\ SelectionOutcome.content outcome = Some "from claude"
      /\ SelectionOutcome.reasoning outcome = JUndefined
      /\ SelectionOutcome.scores outcome = Some JUndefined)
  /\ (exists outcome,
      fst (selectBestResponse (judge_replying (Some (double_quoted "{'selected': 'a'}")))
             gpt_result claude_result "p" None empty_trace) = Fulfilled outcome
      /\ SelectionOutcome.winner outcome = "claude"
      /\ SelectionOutcome.content outcome = Some "from claude"
      /\ SelectionOutcome.reasoning outcome = JUndefined
      /\ SelectionOutcome.scores outcome = Some JUndefined).
Proof.
  split.
  - destruct (selectBestResponse_parsed_reply (judge_replying (Some "42")) gpt_result
                claude_result "p" None empty_trace
                {| OpenAIResult.content := Some "42";
                   OpenAIResult.model := JStr "gpt-4-turbo-preview";
                   OpenAIResult.usage :=
                     JObj [("prompt_tokens", JNum 12); ("completion_tokens", JNum 34)];
                   OpenAIResult.finishReason := JStr "stop" |}
                (JNum 42))
      as (outcome & Hout & _ & _ & Hother & Hreason & Hscores & _);
      [vm_compute; reflexivity | vm_compute; reflexivity | discriminate |].
    exists outcome. split; [exact Hout|].
    destruct Hother as [Hw Hc]; [discriminate|].
    split; [exact Hw|]. split; [exact Hc|]. split; [exact Hreason | exact Hscores].
  - destruct (selectBestResponse_parsed_reply
                (judge_replying (Some (double_quoted "{'selected': 'a'}"))) gpt_result
                claude_result "p" None empty_trace
                {| OpenAIResult.content := Some (double_quoted "{'selected': 'a'}");
                   OpenAIResult.model := JStr "gpt-4-turbo-preview";
                   OpenAIResult.usage :=
                     JObj [("prompt_tokens", JNum 12); ("completion_tokens", JNum 34)];
                   OpenAIResult.finishReason := JStr "stop" |}
                (JObj [("selected", JStr "a")]))
      as (outcome & Hout & _ & _ & Hother & Hreason & Hscores & _);
      [vm_compute; reflexivity | vm_compute; reflexivity | discriminate |].
    exists outcome. split; [exact Hout|].
    destruct Hother as [Hw Hc]; [discriminate|].
    split; [exact Hw|]. split; [exact Hc|]. split; [exact Hreason | exact Hscores].
Defined.

(** C6, as stated, fails for the options [{ temperature: 0 }].  The caller
    did not omit the temperature, yet the OpenAI request carries 0.7 in its
    place; and the Claude request has no temperature at all. *)
Lemma requests_do_not_carry_the_temperature :
  openai_requests (snd (getDualAnalysis (both_up verdict_A) "p" "s" zero_temperature empty_trace))
  = [openai_request (both_up verdict_A) "p" "s" zero_temperature]
  /\ anthropic_requests (snd (getDualAnalysis (both_up verdict_A) "p" "s" zero_temperature empty_trace))
     = [claude_request "p" "s" zero_temperature]
  /\ Options.temperature zero_temperature = JNum 0
  /\ request_field (openai_request (both_up verdict_A) "p" "s" zero_temperature) "temperature"
     = Some (JNum (7 # 10))
  /\ request_field (openai_request (both_up verdict_A) "p" "s" zero_temperature) "temperature"
     <> Some (Options.temperature zero_temperature)
  /\ request_field (claude_request "p" "s" zero_temperature) "temperature" = None.
Proof.
  repeat split; try reflexivity. vm_compute. discriminate.
Qed.

(** The amended C6 with empty options: both defaults are sent. *)
Lemma backend_requests_sampling_witness :
  exists openaiRequest claudeRequest,
    openai_requests (snd (getDualAnalysis claude_down "p" "s" Options.empty empty_trace))
    = [openaiRequest]
    /\ anthropic_requests (snd (getDualAnalysis claude_down "p" "s" Options.empty empty_trace))
       = [claudeRequest]
    /\ request_field openaiRequest "temperature" = Some (JNum (7 # 10))
    /\ request_field openaiRequest "max_tokens" = Some (JNum 2000)
    /\ request_field claudeRequest "max_tokens" = Some (JNum 2000).
Proof.
  destruct (backend_requests_sampling claude_down "p" "s" Options.empty empty_trace)
    as (openaiRequest & later & claudeRequest & Ho & Hc & _ & _ & _ & Ht & Hm & _).
  exists openaiRequest, claudeRequest.
  assert (Hlater : later = []).
  { vm_compute in Ho. injection Ho as _ Hl. now subst. }
  subst later. split; [exact Ho|]. split; [exact Hc|].
  split; [exact (Ht eq_refl)|]. exact (Hm eq_refl).
Defined.

(** C10 with temperature 0 and [maxTokens] 0. *)
Lemma falsy_options_take_defaults_witness :
  truthy (JNum 0) = false
  /\ (exists request,
       openai_requests (snd (getOpenAIResponse claude_down "p" "s" zero_sampling empty_trace))
       = [request]
       /\ request_field request "temperature" = Some (JNum (7 # 10)))
  /\ (exists request,
       openai_requests (snd (getOpenAIResponse claude_down "p" "s" zero_sampling empty_trace))
       = [request]
       /\ request_field request "max_tokens" = Some (JNum 2000))
  /\ (exists request,
       anthropic_requests (snd (getClaudeResponse claude_down "p" "s" zero_sampling empty_trace))
       = [request]
       /\ request_field request "max_tokens" = Some (JNum 2000)).
Proof.
  split; [reflexivity|]. split.
  - exact (proj1 (falsy_options_take_defaults claude_down "p" "s" zero_sampling empty_trace)
             eq_refl).
  - exact (proj2 (falsy_options_take_defaults claude_down "p" "s" zero_sampling empty_trace)
             eq_refl).
Defined.

(** * Further properties of the service *)

(** ** The responder as a whole *)

(** X1.  [getDualAnalysis] never rejects, whatever the two clients and the
    judge do, and for each backend exactly one of its result slot and its
    [errors] entry is filled. *)
Theorem getDualAnalysis_never_rejects
    (this : AIService.t) (prompt systemPrompt : string) (options : Options.t) (t : Trace) :
  exists results,
    fst (getDualAnalysis this prompt systemPrompt options t) = Fulfilled results
    /\ (Results.openai results = None <-> Errors.openai (Results.errors results) <> None)
    /\ (Results.claude results = None <-> Errors.claude (Results.errors results) <> None).
Proof.
  run_responder this prompt systemPrompt options t.
  destruct (truthy (Options.selectBest options)), a as [openaiResult|openaiError],
    b as [claudeResult|claudeError];
    try (eexists; split; [reflexivity|]; simpl; split; split; intros H;
         discriminate || reflexivity || (exfalso; now apply H)).
  destruct (selectBestResponse_settles this openaiResult claudeResult prompt
              (Options.selectionCriteria options) t2) as [outcome Hout].
  destruct (selectBestResponse this openaiResult claudeResult prompt
              (Options.selectionCriteria options) t2) as [judged t3].
  simpl in Hout. subst judged.
  eexists; split; [reflexivity|]; simpl.
  split; split; intros H; discriminate || (exfalso; now apply H).
Qed.

(** X2.  Without [selectBest] (absent, [false], 0, an empty string), no
    [selected] key is attached and the judge is not invoked, also when both
    backends answered: the OpenAI client sees the generation request
    only. *)
Theorem getDualAnalysis_without_selectBest
    (this : AIService.t) (prompt systemPrompt : string) (options : Options.t) (t : Trace) :
  truthy (Options.selectBest options) = false ->
  fst (getDualAnalysis this prompt systemPrompt options t)
  = Fulfilled
      {| Results.openai :=
           value_or_null (fst (getOpenAIResponse this prompt systemPrompt options t));
         Results.claude :=
           value_or_null (fst (getClaudeResponse this prompt systemPrompt options t));
         Results.errors :=
           {| Errors.openai :=
                reason_message (fst (getOpenAIResponse this prompt systemPrompt options t));
              Errors.claude :=
                reason_message (fst (getClaudeResponse this prompt systemPrompt options t)) |};
         Results.selected := None |}
  /\ openai_requests (snd (getDualAnalysis this prompt systemPrompt options t))
     = (openai_requests t ++ [openai_request this prompt systemPrompt options])%list.
Proof.
  intros Hbest. run_responder this prompt systemPrompt options t.
  rewrite Hbest, <- Hsame. simpl. split; [reflexivity|]. now rewrite Hco.
Qed.

(** The requests of one call of [getDualAnalysis], exactly. *)
Lemma getDualAnalysis_requests_exact
    (this : AIService.t) (prompt systemPrompt : string) (options : Options.t) (t : Trace) :
  exists results,
    fst (getDualAnalysis this prompt systemPrompt options t) = Fulfilled results
    /\ anthropic_requests (snd (getDualAnalysis this prompt systemPrompt options t))
       = (anthropic_requests t ++ [claude_request prompt systemPrompt options])%list
    /\ openai_requests (snd (getDualAnalysis this prompt systemPrompt options t))
       = (openai_requests t
          ++ openai_request this prompt systemPrompt options
          :: match Results.selected results, Results.openai results, Results.claude results with
             | Some _, Some openaiResult, Some claudeResult =>
                 [openai_request this
                    (selectionPrompt openaiResult claudeResult prompt
                       (Options.selectionCriteria options))
                    evaluator_instruction evaluation_options]
             | _, _, _ => []
             end)%list.
Proof.
  run_responder this prompt systemPrompt options t.
  destruct (truthy (Options.selectBest options)), a as [openaiResult|openaiError],
    b as [claudeResult|claudeError];
    try (eexists; split; [reflexivity|]; simpl; split;
         [now rewrite Hc, Ha | now rewrite Hco, Ho]).
  destruct (selectBestResponse_settles this openaiResult claudeResult prompt
              (Options.selectionCriteria options) t2) as [outcome Hout].
  pose proof (selectBestResponse_requests this openaiResult claudeResult prompt
                (Options.selectionCriteria options) t2) as [Hjo Hja].
  destruct (selectBestResponse this openaiResult claudeResult prompt
              (Options.selectionCriteria options) t2) as [judged t3].
  simpl in *. subst judged.
  eexists; split; [reflexivity|]; simpl. split.
  - now rewrite Hja, Hc, Ha.
  - rewrite Hjo, Hco, Ho, <- app_assoc. reflexivity.
Qed.

(** X3.  Nothing is retried: a call of [getDualAnalysis] hands the Anthropic
    client exactly one request, and the OpenAI client the generation
    request followed by at most the evaluation request, which is there
    exactly when a [selected] key is attached. *)
Theorem getDualAnalysis_request_count
    (this : AIService.t) (prompt systemPrompt : string) (options : Options.t) (t : Trace) :
  exists results,
    fst (getDualAnalysis this prompt systemPrompt options t) = Fulfilled results
    /\ anthropic_requests (snd (getDualAnalysis this prompt systemPrompt options t))
       = (anthropic_requests t ++ [claude_request prompt systemPrompt options])%list
    /\ openai_requests (snd (getDualAnalysis this prompt systemPrompt options t))
       = (openai_requests t
          ++ openai_request this prompt systemPrompt options
          :: match Results.selected results, Results.openai results, Results.claude results with
             | Some _, Some openaiResult, Some claudeResult =>
                 [openai_request this
                    (selectionPrompt openaiResult claudeResult prompt
                       (Options.selectionCriteria options))
                    evaluator_instruction evaluation_options]
             | _, _, _ => []
             end)%list.
Proof. exact (getDualAnalysis_requests_exact this prompt systemPrompt options t). Qed.

(** ** Failures of a backend call *)

(** What a backend call logs: one error entry with the failure's message
    when it rejects, nothing when it is fulfilled. *)
Lemma getOpenAIResponse_logged
    (this : AIService.t) (prompt systemPrompt : string) (options : Options.t) (t : Trace) :
  logged (snd (getOpenAIResponse this prompt systemPrompt options t))
  = (logged t
     ++ match fst (getOpenAIResponse this prompt systemPrompt options t) with
        | Fulfilled _ => []
        | Rejected error => [LogError "OpenAI API error:" (JSError.message error)]
        end)%list.
Proof.
  rewrite getOpenAIResponse_run; simpl.
  destruct (AIService.openai this _ _) as [response|error]; [|reflexivity].
  destruct (OpenAI.choices response); simpl; [reflexivity | now rewrite app_nil_r].
Qed.

Lemma getClaudeResponse_logged
    (this : AIService.t) (prompt systemPrompt : string) (options : Options.t) (t : Trace) :
  logged (snd (getClaudeResponse this prompt systemPrompt options t))
  = (logged t
     ++ match fst (getClaudeResponse this prompt systemPrompt options t) with
        | Fulfilled _ => []
        | Rejected error => [LogError "Claude API error:" (JSError.message error)]
        end)%list.
Proof.
  rewrite getClaudeResponse_run; simpl.
  destruct (AIService.anthropic this _ _) as [response|error]; [|reflexivity].
  destruct (Anthropic.content response); simpl; [reflexivity | now rewrite app_nil_r].
Qed.

(** The judge only adds to the log. *)
Lemma selectBestResponse_logged
    (this : AIService.t) (openaiResult : OpenAIResult.t) (claudeResult : ClaudeResult.t)
    (originalPrompt : string) (criteria : option string) (t : Trace) :
  exists added,
    logged (snd (selectBestResponse this openaiResult claudeResult originalPrompt criteria t))
    = (logged t ++ added)%list.
Proof.
  rewrite selectBestResponse_run.
  pose proof (getOpenAIResponse_logged this
                (selectionPrompt openaiResult claudeResult originalPrompt criteria)
                evaluator_instruction evaluation_options t) as Hlog.
  change (getOpenAIResponse this _ _ _ t)
    with (evaluation_call this openaiResult claudeResult originalPrompt criteria t) in Hlog.
  destruct (evaluation_call this openaiResult claudeResult originalPrompt criteria t)
    as [[evaluation|error] t1]; simpl in *.
  - destruct (JSON.parse _) as [parsed|]; simpl.
    + destruct (get_prop parsed "selected"); simpl; rewrite Hlog, <- ?app_assoc;
        eexists; reflexivity.
    + rewrite Hlog, <- app_assoc. eexists; reflexivity.
  - rewrite Hlog, <- app_assoc. eexists; reflexivity.
Qed.

(** X4.  No backend failure is swallowed silently: every message that
    [getDualAnalysis] returns under [errors] was also written to the error
    log, under the backend's label. *)
Theorem backend_failures_are_logged
    (this : AIService.t) (prompt systemPrompt : string) (options : Options.t) (t : Trace) :
  exists results,
    fst (getDualAnalysis this prompt systemPrompt options t) = Fulfilled results
    /\ (forall msg, Errors.openai (Results.errors results) = Some msg ->
          In (LogError "OpenAI API error:" msg)
             (logged (snd (getDualAnalysis this prompt systemPrompt options t))))
    /\ (forall msg, Errors.claude (Results.errors results) = Some msg ->
          In (LogError "Claude API error:" msg)
             (logged (snd (getDualAnalysis this prompt systemPrompt options t)))).
Proof.
  pose proof (getOpenAIResponse_logged this prompt systemPrompt options t) as Hlo.
  rewrite getDualAnalysis_run.
  destruct (getOpenAIResponse this prompt systemPrompt options t) as [a t1]; simpl in *.
  pose proof (getClaudeResponse_logged this prompt systemPrompt options t1) as Hlc.
  destruct (getClaudeResponse this prompt systemPrompt options t1) as [b t2]; simpl in *.
  assert (Hin : forall entry, In entry (logged t1) -> In entry (logged t2)).
  { intros entry Hentry. rewrite Hlc. apply in_or_app. now left. }
  destruct (truthy (Options.selectBest options)), a as [openaiResult|openaiError],
    b as [claudeResult|claudeError];
    try (eexists; split; [reflexivity|]; simpl; split; intros msg Hmsg;
         [ discriminate
           || (injection Hmsg as <-; apply Hin; rewrite Hlo; apply in_or_app; right; now left)
         | discriminate
           || (injection Hmsg as <-; rewrite Hlc; apply in_or_app; right; now left) ]).
  destruct (selectBestResponse_settles this openaiResult claudeResult prompt
              (Options.selectionCriteria options) t2) as [outcome Hout].
  destruct (selectBestResponse this openaiResult claudeResult prompt
              (Options.selectionCriteria options) t2) as [judged t3].
  simpl in Hout. subst judged.
  eexists; split; [reflexivity|]; simpl. split; intros msg Hmsg; discriminate.
Qed.

(** X5.  A reply without content counts as a failure of that backend: a
    chat completion with no choices, and an Anthropic message with no
    content block, make the call reject with the TypeError of reading a
    property of [undefined], and [getDualAnalysis] reports its message under
    [errors] with [null] in the slot. *)
Theorem empty_replies_are_failures
    (this : AIService.t) (prompt systemPrompt : string) (options : Options.t) (t : Trace) :
  (forall response,
      AIService.openai this (openai_requests t)
        (openai_request this prompt systemPrompt options) = Fulfilled response ->
      OpenAI.choices response = [] ->
      exists results,
        fst (getDualAnalysis this prompt systemPrompt options t) = Fulfilled results
        /\ Results.openai results = None
        /\ Errors.openai (Results.errors results)
           = Some "Cannot read properties of undefined (reading 'message')"
        /\ Results.selected results = None)
  /\ (forall response,
      AIService.anthropic this (anthropic_requests t)
        (claude_request prompt systemPrompt options) = Fulfilled response ->
      Anthropic.content response = [] ->
      exists results,
        fst (getDualAnalysis this prompt systemPrompt options t) = Fulfilled results
        /\ Results.claude results = None
        /\ Errors.claude (Results.errors results)
           = Some "Cannot read properties of undefined (reading 'text')"
        /\ Results.selected results = None).
Proof.
  pose proof (getOpenAIResponse_run this prompt systemPrompt options t) as Hro.
  pose proof (getClaudeResponse_run this prompt systemPrompt options t) as Hrc.
  run_responder this prompt systemPrompt options t.
  split.
  - intros response Hresponse Hchoices. rewrite Hresponse, Hchoices in Hro.
    injection Hro as -> _.
    destruct (truthy (Options.selectBest options)), b; eexists; now repeat split.
  - intros response Hresponse Hcontent. rewrite Hresponse, Hcontent in Hrc.
    simpl in Hrc. rewrite Hrc in Hsame. simpl in Hsame. subst b.
    destruct (truthy (Options.selectBest options)), a; eexists; now repeat split.
Qed.

(** ** The model name and the judge's request *)



(** X7.  The caller's options reach the generation requests only.  The
    evaluation request that [getDualAnalysis] issues always asks for
    temperature 0.3 and [max_tokens] 2000, and names the fine-tuned model
    or [gpt-4-turbo-preview], never [options.model]. *)
Theorem judge_request_ignores_options
    (this : AIService.t) (prompt systemPrompt : string) (options : Options.t) (t : Trace) :
  exists generation later,
    openai_requests (snd (getDualAnalysis this prompt systemPrompt options t))
    = (openai_requests t ++ generation :: later)%list
    /\ forall request, In request later ->
         request_field request "temperature" = Some (JNum (3 # 10))
         /\ request_field request "max_tokens" = Some (JNum 2000)
         /\ request_field request "model"
            = Some (js_or (AIService.fineTunedModel this) (JStr "gpt-4-turbo-preview")).
Proof.
  destruct (getDualAnalysis_requests_exact this prompt systemPrompt options t)
    as (results & _ & _ & Hreq).
  eexists. eexists. split; [exact Hreq|].
  intros request Hin.
  destruct (Results.selected results), (Results.openai results), (Results.claude results);
    try contradiction.
  destruct Hin as [<-|[]]. simpl. repeat split.
  unfold js_or; simpl.
  destruct (truthy (AIService.fineTunedModel this)) eqn:E; simpl; now rewrite ?E.
Qed.

(** ** The evaluation prompt *)

(** X8.  The evaluation prompt carries the original prompt and both
    responses as they are, the OpenAI one labelled A and Claude's labelled
    B, a [null] content as the text [null], and the caller's criteria; an
    empty criteria string is replaced by the default criteria like an
    absent one. *)
Theorem selectionPrompt_embeds
    (openaiResult : OpenAIResult.t) (claudeResult : ClaudeResult.t)
    (originalPrompt : string) :
  (forall criteria,
      embeds (selectionPrompt openaiResult claudeResult originalPrompt criteria)
             ("Original Prompt: " ++ originalPrompt)
      /\ embeds (selectionPrompt openaiResult claudeResult originalPrompt criteria)
                ("Response A (OpenAI):" ++ String "010" EmptyString
                 ++ to_text (OpenAIResult.content openaiResult))
      /\ embeds (selectionPrompt openaiResult claudeResult originalPrompt criteria)
                ("Response B (Claude):" ++ String "010" EmptyString
                 ++ to_text (ClaudeResult.content claudeResult)))
  /\ (forall criteria,
        criteria <> EmptyString ->
        embeds (selectionPrompt openaiResult claudeResult originalPrompt (Some criteria))
               ("Evaluation Criteria: " ++ criteria))
  /\ embeds (selectionPrompt openaiResult claudeResult originalPrompt (Some EmptyString))
            "Evaluation Criteria: accuracy, helpfulness, clarity, completeness"
  /\ to_text None = "null".
Proof.
  split; [|split; [|split; [|reflexivity]]].
  - intros criteria. unfold selectionPrompt. split; [|split].
    + exists (String "010" "You are an expert evaluator. Compare these two AI responses and select the better one."
              ++ String "010" (String "010" EmptyString)).
      eexists. simpl. reflexivity.
    + do 2 apply embeds_after.
      exists (String "010" (String "010" EmptyString)). eexists.
      simpl. reflexivity.
    + do 4 apply embeds_after.
      exists (String "010" (String "010" EmptyString)). eexists.
      simpl. reflexivity.
  - intros criteria Hcriteria. unfold selectionPrompt, or_literal.
    destruct (String.eqb_spec criteria EmptyString) as [->|_]; [now contradiction Hcriteria|].
    do 6 apply embeds_after.
    exists (String "010" (String "010" EmptyString)). eexists.
    simpl. reflexivity.
  - unfold selectionPrompt.
    do 6 apply embeds_after.
    exists (String "010" (String "010" EmptyString)). eexists.
    simpl. reflexivity.
Qed.

(** ** When the judge falls back *)

(** X9.  [selectBestResponse] returns its default outcome exactly when the
    evaluation call rejects, its text is not JSON, or its text is the JSON
    value [null].  An outcome without a [scores] key is the default one,
    and the warning is logged exactly with it. *)
Theorem fallback_exactly_when
    (this : AIService.t) (openaiResult : OpenAIResult.t) (claudeResult : ClaudeResult.t)
    (originalPrompt : string) (criteria : option string) (t : Trace) :
  exists outcome,
    fst (selectBestResponse this openaiResult claudeResult originalPrompt criteria t)
      = Fulfilled outcome
    /\ (outcome = default_selection claudeResult <->
        judge_unusable this openaiResult claudeResult originalPrompt criteria t
        \/ exists evaluation,
             fst (evaluation_call this openaiResult claudeResult originalPrompt criteria t)
               = Fulfilled evaluation
             /\ JSON.parse (to_text (OpenAIResult.content evaluation)) = Some JNull)
    /\ (SelectionOutcome.scores outcome = None <-> outcome = default_selection claudeResult)
    /\ match SelectionOutcome.scores outcome with
       | None =>
           exists detail,
             logged (snd (selectBestResponse this openaiResult claudeResult
                            originalPrompt criteria t))
             = (logged (snd (evaluation_call this openaiResult claudeResult
                               originalPrompt criteria t))
                ++ [LogWarn "Response selection failed, defaulting to Claude:" detail])%list
       | Some _ =>
           logged (snd (selectBestResponse this openaiResult claudeResult
                          originalPrompt criteria t))
           = logged t
       end.
Proof.
  rewrite selectBestResponse_run. unfold judge_unusable.
  pose proof (getOpenAIResponse_logged this
                (selectionPrompt openaiResult claudeResult originalPrompt criteria)
                evaluator_instruction evaluation_options t) as Hlog.
  change (getOpenAIResponse this _ _ _ t)
    with (evaluation_call this openaiResult claudeResult originalPrompt criteria t) in Hlog.
  destruct (evaluation_call this openaiResult claudeResult originalPrompt criteria t)
    as [[evaluation|error] t1]; simpl in *.
  - rewrite app_nil_r in Hlog.
    destruct (JSON.parse (to_text (OpenAIResult.content evaluation))) as [parsed|] eqn:Eparse.
    + destruct parsed; simpl;
        try (eexists; split; [reflexivity|]; simpl;
             split; [|split; [|exact Hlog]];
             [ split; [discriminate | intros [H|(ev & Hev & Hnull)];
                                      [discriminate | injection Hev as <-; congruence]]
             | split; discriminate ]).
      * pose proof (JSONFacts.parse_produced _ _ Eparse) as Hdefined.
        now contradiction Hdefined.
      * eexists; split; [reflexivity|]; simpl.
        split; [|split; [now split | eexists; reflexivity]].
        split; [|reflexivity]. intros _. right. now exists evaluation.
    + eexists; split; [reflexivity|]; simpl.
      split; [|split; [now split | eexists; reflexivity]].
      split; [|reflexivity]. intros _. now left.
  - eexists; split; [reflexivity|]; simpl.
    split; [|split; [now split | eexists; reflexivity]].
    split; [|reflexivity]. intros _. now left.
Qed.

(** ** Parsing what [JSON.stringify] wrote *)

Module JSONRoundTrip.

Import JSON JSONStringify JSONFacts.
Local Open Scope nat_scope.

(** A parser that succeeds still succeeds, with the same result, when the
    parsers it calls succeed more often. *)
Lemma value_of_more elements elements' members members' (s : string) r :
  (forall acc s' r', elements acc s' = Some r' -> elements' acc s' = Some r') ->
  (forall acc s' r', members acc s' = Some r' -> members' acc s' = Some r') ->
  value_of elements members s = Some r -> value_of elements' members' s = Some r.
Proof.
  intros Hel Hmem. unfold value_of.
  destruct (skip_ws s) as [|c rest]; [exact (fun H => H)|].
  each_char c; try exact (fun H => H).
  - destruct (skip_ws rest) as [|c rest']; [apply Hmem|].
    each_char c; try exact (fun H => H); apply Hmem.
  - destruct (skip_ws rest) as [|c rest']; [apply Hel|].
    each_char c; try exact (fun H => H); apply Hel.
Qed.

Lemma elements_of_more value value' elements elements' acc (s : string) r :
  (forall s' r', value s' = Some r' -> value' s' = Some r') ->
  (forall acc s' r', elements acc s' = Some r' -> elements' acc s' = Some r') ->
  elements_of value elements acc s = Some r -> elements_of value' elements' acc s = Some r.
Proof.
  intros Hval Hel. unfold elements_of.
  destruct (value s) as [[x s1]|] eqn:Ex; [|discriminate].
  rewrite (Hval _ _ Ex).
  destruct (skip_ws s1) as [|c s2]; [exact (fun H => H)|].
  each_char c; try exact (fun H => H). apply Hel.
Qed.

Lemma members_of_more value value' members members' acc (s : string) r :
  (forall s' r', value s' = Some r' -> value' s' = Some r') ->
  (forall acc s' r', members acc s' = Some r' -> members' acc s' = Some r') ->
  members_of value members acc s = Some r -> members_of value' members' acc s = Some r.
Proof.
  intros Hval Hmem. unfold members_of.
  destruct (skip_ws s) as [|q s1]; [exact (fun H => H)|].
  destruct (Ascii.eqb_spec q "034"%char) as [->|Hq];
    [|each_char q; try exact (fun H => H); excluded Hq].
  destruct (string_body s1) as [[key s2]|]; [|exact (fun H => H)].
  destruct (skip_ws s2) as [|colon s3]; [exact (fun H => H)|].
  destruct (Ascii.eqb_spec colon ":"%char) as [->|Hcolon];
    [|each_char colon; try exact (fun H => H); excluded Hcolon].
  destruct (value s3) as [[x s4]|] eqn:Ex; [|discriminate].
  rewrite (Hval _ _ Ex).
  destruct (skip_ws s4) as [|c s5]; [exact (fun H => H)|].
  each_char c; try exact (fun H => H). apply Hmem.
Qed.

Lemma more_fuel (fuel : nat) :
  (forall s r, value fuel s = Some r -> value (S fuel) s = Some r)
  /\ (forall acc s r, elements fuel acc s = Some r -> elements (S fuel) acc s = Some r)
  /\ (forall acc s r, members fuel acc s = Some r -> members (S fuel) acc s = Some r).
Proof.
  induction fuel as [|fuel [IHv [IHe IHm]]].
  - repeat split; discriminate.
  - split; [|split].
    + intros s r.
      apply (value_of_more (elements fuel) (elements (S fuel))
                           (members fuel) (members (S fuel))); assumption.
    + intros acc s r.
      apply (elements_of_more (value fuel) (value (S fuel))
                              (elements fuel) (elements (S fuel))); assumption.
    + intros acc s r.
      apply (members_of_more (value fuel) (value (S fuel))
                             (members fuel) (members (S fuel))); assumption.
Qed.

Lemma value_fuel_le (fuel fuel' : nat) (s : string) r :
  fuel <= fuel' -> value fuel s = Some r -> value fuel' s = Some r.
Proof.
  induction 1 as [|fuel' _ IH]; [exact (fun H => H)|].
  intros H. apply more_fuel. now apply IH.
Qed.

(** Reading back an escaped string up to its closing quote gives the
    string. *)
Lemma string_body_escape (s rest : string) :
  string_body (escape s ++ String "034" rest) = Some (s, rest).
Proof.
  induction s as [|c s IH]; [reflexivity|].
  change (escape (String c s)) with (escape_char c ++ escape s).
  each_char c; cbn - [string_body]; simpl; rewrite IH; reflexivity.
Qed.

(** A quoted string is read as that string. *)
Lemma value_quoted (fuel : nat) (s rest : string) :
  value (S fuel) (quoted_then s rest) = Some (JStr s, rest).
Proof.
  change (value (S fuel) (quoted_then s rest))
    with (match string_body (escape s ++ String "034" rest) with
          | Some (str, rest') => Some (JStr str, rest')
          | None => None
          end).
  now rewrite string_body_escape.
Qed.

(** A member whose value is a string, before a comma and before the
    closing brace. *)
Lemma members_quoted_more (fuel : nat) acc (key s rest : string) :
  members (S (S fuel)) acc
    (quoted_then key (String ":" (quoted_then s (String "," rest))))
  = members (S fuel) (set_prop key (JStr s) acc) rest.
Proof.
  change (members (S (S fuel)) acc
            (quoted_then key (String ":" (quoted_then s (String "," rest)))))
    with (match string_body (escape key ++ String "034"
                               (String ":" (quoted_then s (String "," rest)))) with
          | None => None
          | Some (key, s2) =>
              match skip_ws s2 with
              | String ":" s3 =>
                  match value (S fuel) s3 with
                  | None => None
                  | Some (v, s4) =>
                      match skip_ws s4 with
                      | String "," s5 => members (S fuel) (set_prop key v acc) s5
                      | String "}" s5 => Some (JObj (set_prop key v acc), s5)
                      | _ => None
                      end
                  end
              | _ => None
              end
          end).
  rewrite string_body_escape.
  change (skip_ws (String ":" (quoted_then s (String "," rest))))
    with (String ":" (quoted_then s (String "," rest))).
  cbv iota. rewrite value_quoted. reflexivity.
Qed.

Lemma members_quoted_last (fuel : nat) acc (key s rest : string) :
  members (S (S fuel)) acc
    (quoted_then key (String ":" (quoted_then s (String "}" rest))))
  = Some (JObj (set_prop key (JStr s) acc), rest).
Proof.
  change (members (S (S fuel)) acc
            (quoted_then key (String ":" (quoted_then s (String "}" rest)))))
    with (match string_body (escape key ++ String "034"
                               (String ":" (quoted_then s (String "}" rest)))) with
          | None => None
          | Some (key, s2) =>
              match skip_ws s2 with
              | String ":" s3 =>
                  match value (S fuel) s3 with
                  | None => None
                  | Some (v, s4) =>
                      match skip_ws s4 with
                      | String "," s5 => members (S fuel) (set_prop key v acc) s5
                      | String "}" s5 => Some (JObj (set_prop key v acc), s5)
                      | _ => None
                      end
                  end
              | _ => None
              end
          end).
  rewrite string_body_escape.
  change (skip_ws (String ":" (quoted_then s (String "}" rest))))
    with (String ":" (quoted_then s (String "}" rest))).
  cbv iota. rewrite value_quoted. reflexivity.
Qed.

(** An object with the two members [role] and [content]. *)
Lemma value_message (fuel : nat) (role content rest : string) :
  value (S (S (S (S fuel))))
    (String "{" (quoted_then "role" (String ":" (quoted_then role (String ","
       (quoted_then "content" (String ":" (quoted_then content (String "}" rest)))))))))
  = Some (JObj [("role", JStr role); ("content", JStr content)], rest).
Proof.
  change (value (S (S (S (S fuel)))) (String "{" ?x))
    with (members (S (S (S fuel))) [] x).
  rewrite members_quoted_more, members_quoted_last. reflexivity.
Qed.

(** One element of an array, before a comma and before the closing
    bracket. *)
Lemma elements_more (fuel : nat) acc (s : string) v (rest : string) :
  value fuel s = Some (v, String "," rest) ->
  elements (S fuel) acc s = elements fuel (v :: acc) rest.
Proof.
  intros H.
  change (elements (S fuel) acc s)
    with (elements_of (value fuel) (elements fuel) acc s).
  unfold elements_of. now rewrite H.
Qed.

Lemma elements_last (fuel : nat) acc (s : string) v (rest : string) :
  value fuel s = Some (v, String "]" rest) ->
  elements (S fuel) acc s = Some (JArr (rev (v :: acc)), rest).
Proof.
  intros H.
  change (elements (S fuel) acc s)
    with (elements_of (value fuel) (elements fuel) acc s).
  unfold elements_of. now rewrite H.
Qed.

(** The last member of an object, whatever its value. *)
Lemma members_last (fuel : nat) acc (key s : string) v (rest : string) :
  value fuel s = Some (v, String "}" rest) ->
  members (S fuel) acc (quoted_then key (String ":" s))
  = Some (JObj (set_prop key v acc), rest).
Proof.
  intros H.
  change (members (S fuel) acc (quoted_then key (String ":" s)))
    with (match string_body (escape key ++ String "034" (String ":" s)) with
          | None => None
          | Some (key, s2) =>
              match skip_ws s2 with
              | String ":" s3 =>
                  match value fuel s3 with
                  | None => None
                  | Some (v, s4) =>
                      match skip_ws s4 with
                      | String "," s5 => members fuel (set_prop key v acc) s5
                      | String "}" s5 => Some (JObj (set_prop key v acc), s5)
                      | _ => None
                      end
                  end
              | _ => None
              end
          end).
  rewrite string_body_escape.
  change (skip_ws (String ":" s)) with (String ":" s).
  cbv iota. now rewrite H.
Qed.

End JSONRoundTrip.

(** Splitting and joining. *)
Lemma split_on_nonempty (c : ascii) (s : string) : split_on c s <> [].
Proof.
  destruct s as [|x s]; simpl; [discriminate|].
  destruct (Ascii.eqb x c); [discriminate|].
  destruct (split_on c s); discriminate.
Qed.

Lemma append_empty (s : string) : s ++ EmptyString = s.
Proof. induction s as [|x s IH]; simpl; [reflexivity | now rewrite IH]. Qed.

(** A text without the separator in front of another one joins the first
    part of it. *)
Lemma split_on_append (c : ascii) (a b : string) :
  split_on c a = [a] ->
  split_on c (a ++ b)
  = match split_on c b with
    | part :: parts => (a ++ part) :: parts
    | [] => [a]
    end.
Proof.
  induction a as [|x a IH]; simpl.
  - intros _. pose proof (split_on_nonempty c b). now destruct (split_on c b).
  - destruct (Ascii.eqb x c); [discriminate|].
    destruct (split_on c a) as [|part parts] eqn:E; [now destruct (split_on_nonempty c a)|].
    intros H. injection H as -> ->. rewrite (IH eq_refl).
    pose proof (split_on_nonempty c b). now destruct (split_on c b).
Qed.

Lemma split_on_cons (c x : ascii) (s : string) :
  Ascii.eqb x c = false -> split_on c s = [s] -> split_on c (String x s) = [String x s].
Proof. intros Hx Hs. simpl. now rewrite Hx, Hs. Qed.

Lemma split_on_free_append (c : ascii) (a b : string) :
  split_on c a = [a] -> split_on c b = [b] -> split_on c (a ++ b) = [a ++ b].
Proof. intros Ha Hb. now rewrite (split_on_append c a b Ha), Hb. Qed.

(** [text.split(c)] undoes [parts.join(c)] when no part holds [c]. *)
Lemma split_on_join (c : ascii) (parts : list string) :
  parts <> [] ->
  Forall (fun part => split_on c part = [part]) parts ->
  split_on c (JSONStringify.join (String c EmptyString) parts) = parts.
Proof.
  induction parts as [|part rest IH]; [intros H; now contradiction H|].
  intros _ Hfree. inversion Hfree as [|? ? Hpart Hrest]; subst.
  destruct rest as [|next rest]; [exact Hpart|].
  change (JSONStringify.join (String c EmptyString) (part :: next :: rest))
    with (part ++ String c (JSONStringify.join (String c EmptyString) (next :: rest))).
  rewrite (split_on_append c _ _ Hpart).
  change (split_on c (String c ?x))
    with (if Ascii.eqb c c then EmptyString :: split_on c x
          else match split_on c x with
               | p :: ps => String c p :: ps
               | [] => [String c EmptyString]
               end).
  rewrite Ascii.eqb_refl, append_empty, IH; [reflexivity | discriminate | exact Hrest].
Qed.

(** ** The fine-tuning data set *)

Section FineTuning.

Variable number_text : Q -> string.

Import JSONStringify JSONRoundTrip.

Local Abbreviation message role content rest :=
  (String "{" (quoted_then "role" (String ":" (quoted_then role (String ","
     (quoted_then "content" (String ":" (quoted_then content (String "}" rest))))))))).

Local Abbreviation strings prompt completion :=
  {| Example.prompt := JStr prompt; Example.completion := JStr completion |}.

(** The line written for an example whose prompt and completion are
    strings. *)
Lemma training_line_text (prompt completion : string) :
  training_line number_text (strings prompt completion)
  = String "{" (quoted_then "messages" (String ":" (String "["
      (message "system" "You are a healthcare analytics AI assistant." (String ","
      (message "user" prompt (String ","
      (message "assistant" completion (String "]" (String "}" EmptyString)))))))))).
Proof.
  unfold training_line, stringify, training_record, quoted_then. cbn.
  repeat (rewrite !append_assoc; cbn).
  reflexivity.
Qed.

Lemma training_line_value (prompt completion : string) (fuel : nat) :
  JSON.value (10 + fuel) (training_line number_text (strings prompt completion))
  = Some (training_record (strings prompt completion), EmptyString).
Proof.
  rewrite training_line_text.
  change (JSON.value (10 + fuel) (String "{" ?x)) with (JSON.members (9 + fuel) [] x).
  match goal with
  | |- JSON.members _ [] (quoted_then _ (String ":" ?array)) = _ =>
      assert (Harray :
        JSON.value (8 + fuel) array
        = Some (JArr [ JObj [("role", JStr "system");
                             ("content",
                              JStr "You are a healthcare analytics AI assistant.")];
                       JObj [("role", JStr "user"); ("content", JStr prompt)];
                       JObj [("role", JStr "assistant");
                             ("content", JStr completion)] ],
                String "}" EmptyString))
  end.
  { change (JSON.value (8 + fuel) (String "[" ?x)) with (JSON.elements (7 + fuel) [] x).
    rewrite (elements_more (6 + fuel) _ _ _ _ (value_message (2 + fuel) _ _ _)).
    rewrite (elements_more (5 + fuel) _ _ _ _ (value_message (1 + fuel) _ _ _)).
    rewrite (elements_last (4 + fuel) _ _ _ _ (value_message fuel _ _ _)).
    reflexivity. }
  rewrite (members_last (8 + fuel) [] _ _ _ _ Harray). reflexivity.
Qed.

(** No escaped text holds a raw newline. *)
Lemma escape_one_line (s : string) : split_on "010" (escape s) = [escape s].
Proof.
  induction s as [|c s IH]; [reflexivity|].
  change (escape (String c s)) with (escape_char c ++ escape s).
  apply split_on_free_append; [|exact IH].
  JSONFacts.each_char c; reflexivity.
Qed.

Lemma quoted_then_one_line (s rest : string) :
  split_on "010" rest = [rest] -> split_on "010" (quoted_then s rest) = [quoted_then s rest].
Proof.
  intros Hrest. unfold quoted_then.
  apply split_on_cons; [reflexivity|].
  apply split_on_free_append; [apply escape_one_line|].
  now apply split_on_cons.
Qed.

Lemma training_line_one_line (prompt completion : string) :
  split_on "010" (training_line number_text (strings prompt completion))
  = [training_line number_text (strings prompt completion)].
Proof.
  rewrite training_line_text.
  repeat (first [ apply quoted_then_one_line
                | apply split_on_cons; [reflexivity|]
                | reflexivity ]).
Qed.

(** A line is read back as its record. *)
Lemma training_line_parses (prompt completion : string) :
  JSON.parse (training_line number_text (strings prompt completion))
  = Some (training_record (strings prompt completion)).
Proof.
  unfold JSON.parse.
  assert (Hlong : (10 <= 2 * String.length
                               (training_line number_text (strings prompt completion)) + 4)%nat).
  { rewrite training_line_text. unfold quoted_then. simpl. lia. }
  rewrite (value_fuel_le 10 _ _ _ Hlong (training_line_value prompt completion 0)).
  reflexivity.
Qed.

(** X10.  A fine-tuning record survives the trip through its line: for
    every prompt and completion, whatever quotes, backslashes, newlines or
    control characters they hold, the line written for them has no raw
    newline and [JSON.parse] reads it back as the record. *)
Theorem training_line_round_trip (prompt completion : string) :
  JSON.parse (training_line number_text (strings prompt completion))
  = Some (training_record (strings prompt completion))
  /\ split_on "010" (training_line number_text (strings prompt completion))
     = [training_line number_text (strings prompt completion)].
Proof.
  split; [apply training_line_parses | apply training_line_one_line].
Qed.

(** X11.  The data set is one line per example, in order: for a non-empty
    list of examples with string prompts and completions,
    [generateFineTuningData] is fulfilled without touching either client,
    and splitting its text at the newlines and parsing every line gives
    back the records of the examples.  For no examples the text is
    empty. *)
Theorem fine_tuning_data_round_trip (texts : list (string * string)) (t : Trace) :
  let examples := map (fun text => strings (fst text) (snd text)) texts in
  generateFineTuningData number_text [] t = (Fulfilled EmptyString, t)
  /\ (texts <> [] ->
      exists data,
        generateFineTuningData number_text examples t = (Fulfilled data, t)
        /\ split_on "010" data = map (training_line number_text) examples
        /\ map JSON.parse (split_on "010" data)
           = map (fun example => Some (training_record example)) examples).
Proof.
  intros examples. split; [reflexivity|]. intros Hsome.
  eexists. split; [reflexivity|].
  assert (Hlines :
    split_on "010"
      (join newline
         (map (fun d => match stringify number_text d with
                        | Some text => text
                        | None => "undefined"
                        end) (map training_record examples)))
    = map (training_line number_text) examples).
  { rewrite map_map. apply split_on_join.
    - unfold examples. destruct texts; [now contradiction Hsome | discriminate].
    - unfold examples. rewrite map_map. apply Forall_forall.
      intros line Hline. apply in_map_iff in Hline. destruct Hline as [[p c] [<- _]].
      apply training_line_one_line. }
  split; [exact Hlines|].
  rewrite Hlines, map_map. unfold examples. rewrite !map_map.
  apply map_ext. intros [p c]. apply training_line_parses.
Qed.

End FineTuning.

(** ** The analysis methods *)

(** With [selectBest] set, a selection is attached exactly when both
    result slots are filled. *)
Lemma getDualAnalysis_select_best
    (this : AIService.t) (prompt systemPrompt : string) (criteria : option string)
    (t : Trace) :
  exists results,
    fst (getDualAnalysis this prompt systemPrompt (select_best_by criteria) t)
      = Fulfilled results
    /\ (Results.selected results <> None <->
        Results.openai results <> None /\ Results.claude results <> None)
    /\ forall outcome openaiResult claudeResult,
         Results.selected results = Some outcome ->
         Results.openai results = Some openaiResult ->
         Results.claude results = Some claudeResult ->
         openai_requests
           (snd (getDualAnalysis this prompt systemPrompt (select_best_by criteria) t))
         = (openai_requests t
            ++ [ openai_request this prompt systemPrompt (select_best_by criteria);
                 openai_request this
                   (selectionPrompt openaiResult claudeResult prompt criteria)
                   evaluator_instruction evaluation_options ])%list.
Proof.
  destruct (getDualAnalysis_requests_exact this prompt systemPrompt
              (select_best_by criteria) t) as (results & Hres & _ & Hreq).
  exists results. split; [exact Hres|]. split.
  - clear Hreq. revert Hres.
    run_responder this prompt systemPrompt (select_best_by criteria) t.
    destruct a as [openaiResult|?], b as [claudeResult|?]; simpl.
    + destruct (selectBestResponse this openaiResult claudeResult prompt criteria t2)
        as [[judged|?] t3]; simpl; [|discriminate].
      intros H; injection H as <-; simpl.
      split; intros _; [split|]; discriminate.
    + intros H; injection H as <-; simpl.
      split; [intros Hx | intros [_ Hx]]; now contradiction Hx.
    + intros H; injection H as <-; simpl.
      split; [intros Hx | intros [Hx _]]; now contradiction Hx.
    + intros H; injection H as <-; simpl.
      split; [intros Hx | intros [Hx _]]; now contradiction Hx.
  - intros outcome openaiResult claudeResult Hsel Ho Hc.
    rewrite Hsel, Ho, Hc in Hreq. exact Hreq.
Qed.

Section AnalysisMethodsFacts.

Variable this : AIService.t.
Variable number_text : Q -> string.


(** What the judge is asked after an analysis: the method's whole prompt
    and the method's criteria. *)
Lemma judge_prompt_of_analysis (prompt systemPrompt : string) (criteria : option string)
    (t : Trace) (results : Results.t) (outcome : SelectionOutcome.t) :
  fst (getDualAnalysis this prompt systemPrompt (select_best_by criteria) t)
    = Fulfilled results ->
  Results.selected results = Some outcome ->
  exists evaluationPrompt,
    last (openai_requests
            (snd (getDualAnalysis this prompt systemPrompt (select_best_by criteria) t)))
         JUndefined
    = openai_request this evaluationPrompt evaluator_instruction evaluation_options
    /\ embeds evaluationPrompt ("Original Prompt: " ++ prompt)
    /\ embeds evaluationPrompt
              ("Evaluation Criteria: " ++ or_literal criteria default_criteria).
Proof.
  intros Hres Hsel.
  destruct (getDualAnalysis_select_best this prompt systemPrompt criteria t)
    as (results' & Hres' & Hiff & Hreq).
  rewrite Hres in Hres'. injection Hres' as <-.
  assert (Hboth : Results.openai results <> None /\ Results.claude results <> None).
  { apply Hiff. rewrite Hsel. discriminate. }
  destruct Hboth as [Ho Hc].
  destruct (Results.openai results) as [openaiResult|] eqn:Eo; [|now contradiction Ho].
  destruct (Results.claude results) as [claudeResult|] eqn:Ec; [|now contradiction Hc].
  exists (selectionPrompt openaiResult claudeResult prompt criteria).
  split; [|split].
  - rewrite (Hreq outcome openaiResult claudeResult Hsel eq_refl eq_refl).
    match goal with
    | |- last (?l ++ [?x; ?y])%list _ = _ =>
        replace (l ++ [x; y])%list with ((l ++ [x]) ++ [y])%list
          by (now rewrite <- app_assoc)
    end.
    apply last_last.
  - unfold selectionPrompt.
    exists (String "010" "You are an expert evaluator. Compare these two AI responses and select the better one."
            ++ String "010" (String "010" EmptyString)).
    eexists. simpl. reflexivity.
  - unfold selectionPrompt. do 6 apply embeds_after.
    exists (String "010" (String "010" EmptyString)). eexists. simpl. reflexivity.
Qed.

(** X13.  The criteria each method hands to the judge.  Whenever a
    selection is attached, the last request to the OpenAI client is the
    evaluation request, and its prompt names the criteria of the method:
    [clinical accuracy, completeness, actionability] for
    [analyzePatientForCarePlans], [empathy, clarity, professionalism,
    call-to-action effectiveness] for [generateOutreachContent], and the
    default criteria for [performRiskStratification],
    [analyzeICD10Patterns] and [identifyCareGaps], which pass none. *)
Theorem analysis_methods_criteria (t : Trace) :
  (forall patientData availableCarePlans results outcome,
      fst (analyzePatientForCarePlans this number_text patientData availableCarePlans t)
        = Fulfilled results ->
      Results.selected results = Some outcome ->
      exists evaluationPrompt,
        last (openai_requests
                (snd (analyzePatientForCarePlans this number_text patientData
                        availableCarePlans t))) JUndefined
        = openai_request this evaluationPrompt evaluator_instruction evaluation_options
        /\ embeds evaluationPrompt
                  "Evaluation Criteria: clinical accuracy, completeness, actionability")
  /\ (forall patientInfo carePlan outreachType results outcome,
      fst (generateOutreachContent this patientInfo carePlan outreachType t)
        = Fulfilled results ->
      Results.selected results = Some outcome ->
      exists evaluationPrompt,
        last (openai_requests
                (snd (generateOutreachContent this patientInfo carePlan outreachType t)))
             JUndefined
        = openai_request this evaluationPrompt evaluator_instruction evaluation_options
        /\ embeds evaluationPrompt
                  "Evaluation Criteria: empathy, clarity, professionalism, call-to-action effectiveness")
  /\ (forall patientPopulation results outcome,
      fst (performRiskStratification this number_text patientPopulation t)
        = Fulfilled results ->
      Results.selected results = Some outcome ->
      exists evaluationPrompt,
        last (openai_requests
                (snd (performRiskStratification this number_text patientPopulation t)))
             JUndefined
        = openai_request this evaluationPrompt evaluator_instruction evaluation_options
        /\ embeds evaluationPrompt
                  "Evaluation Criteria: accuracy, helpfulness, clarity, completeness")
  /\ (forall icd10Data results outcome,
      fst (analyzeICD10Patterns this number_text icd10Data t) = Fulfilled results ->
      Results.selected results = Some outcome ->
      exists evaluationPrompt,
        last (openai_requests (snd (analyzeICD10Patterns this number_text icd10Data t)))
             JUndefined
        = openai_request this evaluationPrompt evaluator_instruction evaluation_options
        /\ embeds evaluationPrompt
                  "Evaluation Criteria: accuracy, helpfulness, clarity, completeness")
  /\ (forall patientData qualityMeasures results outcome,
      fst (identifyCareGaps this number_text patientData qualityMeasures t)
        = Fulfilled results ->
      Results.selected results = Some outcome ->
      exists evaluationPrompt,
        last (openai_requests
                (snd (identifyCareGaps this number_text patientData qualityMeasures t)))
             JUndefined
        = openai_request this evaluationPrompt evaluator_instruction evaluation_options
        /\ embeds evaluationPrompt
                  "Evaluation Criteria: accuracy, helpfulness, clarity, completeness").
Proof.
  split; [|split; [|split; [|split]]].
  - intros patientData availableCarePlans results outcome Hres Hsel.
    destruct (judge_prompt_of_analysis _ _ _ t results outcome Hres Hsel)
      as (evaluationPrompt & Hlast & _ & Hcriteria).
    now exists evaluationPrompt.
  - intros patientInfo carePlan outreachType results outcome Hres Hsel.
    destruct (judge_prompt_of_analysis _ _ _ t results outcome Hres Hsel)
      as (evaluationPrompt & Hlast & _ & Hcriteria).
    now exists evaluationPrompt.
  - intros patientPopulation results outcome Hres Hsel.
    destruct (judge_prompt_of_analysis _ _ _ t results outcome Hres Hsel)
      as (evaluationPrompt & Hlast & _ & Hcriteria).
    now exists evaluationPrompt.
  - intros icd10Data results outcome Hres Hsel.
    destruct (judge_prompt_of_analysis _ _ _ t results outcome Hres Hsel)
      as (evaluationPrompt & Hlast & _ & Hcriteria).
    now exists evaluationPrompt.
  - intros patientData qualityMeasures results outcome Hres Hsel.
    destruct (judge_prompt_of_analysis _ _ _ t results outcome Hres Hsel)
      as (evaluationPrompt & Hlast & _ & Hcriteria).
    now exists evaluationPrompt.
Qed.

End AnalysisMethodsFacts.

(** ** The outreach prompt *)

Section Outreach.

Variable this : AIService.t.

Local Abbreviation outreach_criteria :=
  (Some "empathy, clarity, professionalism, call-to-action effectiveness").

(** [middle] with a text before and after it is found in any text built
    around the three. *)
Lemma embeds_between (before prefix middle suffix after text : string) :
  text = (before ++ prefix) ++ middle ++ suffix ++ after ->
  embeds text (prefix ++ middle ++ suffix).
Proof.
  intros ->. exists before, after. now rewrite !append_assoc.
Qed.

(** The prompt reaches both backends as it is built. *)
Lemma generateOutreachContent_requests (patientInfo : PatientInfo.t) (carePlan : CarePlan.t)
    (outreachType : option string) (t : Trace) :
  anthropic_requests (snd (generateOutreachContent this patientInfo carePlan outreachType t))
  = (anthropic_requests t
     ++ [claude_request
           (generateOutreachContent_prompt patientInfo carePlan
              match outreachType with Some given => given | None => "mail" end)
           generateOutreachContent_systemPrompt (select_best_by outreach_criteria)])%list.
Proof.
  unfold generateOutreachContent.
  destruct (getDualAnalysis_requests_exact this
              (generateOutreachContent_prompt patientInfo carePlan
                 match outreachType with Some given => given | None => "mail" end)
              generateOutreachContent_systemPrompt (select_best_by outreach_criteria) t)
    as (results & _ & Hreq & _).
  exact Hreq.
Qed.



(** X15.  The kind of outreach.  Without a type the prompt asks for a
    [mail] in formal letter format; a type other than exactly [mail],
    whatever it is, is named in the request line and gets the email
    format. *)
Theorem outreach_type_format (patientInfo : PatientInfo.t) (carePlan : CarePlan.t)
    (t : Trace) :
  (forall outreachType,
      outreachType = None \/ outreachType = Some "mail" ->
      exists prompt,
        anthropic_requests
          (snd (generateOutreachContent this patientInfo carePlan outreachType t))
        = (anthropic_requests t
           ++ [claude_request prompt generateOutreachContent_systemPrompt
                 (select_best_by outreach_criteria)])%list
        /\ embeds prompt "Generate a mail for this patient:"
        /\ embeds prompt (String "010" "- Formal letter format" ++ String "010" EmptyString))
  /\ (forall kind,
      kind <> "mail" ->
      exists prompt,
        anthropic_requests
          (snd (generateOutreachContent this patientInfo carePlan (Some kind) t))
        = (anthropic_requests t
           ++ [claude_request prompt generateOutreachContent_systemPrompt
                 (select_best_by outreach_criteria)])%list
        /\ embeds prompt ("Generate a " ++ kind ++ " for this patient:")
        /\ embeds prompt (String "010" "- Email format" ++ String "010" EmptyString)).
Proof.
  assert (Hkind : forall kind,
             embeds (generateOutreachContent_prompt patientInfo carePlan kind)
                    ("Generate a " ++ kind ++ " for this patient:")
             /\ embeds (generateOutreachContent_prompt patientInfo carePlan kind)
                       (String "010" "- " ++ format_line kind ++ String "010" EmptyString)).
  { intros kind. unfold generateOutreachContent_prompt. split.
    - eapply (embeds_between (String "010" EmptyString) "Generate a " _
                             " for this patient:").
      simpl. reflexivity.
    - do 10 apply embeds_after.
      eapply (embeds_between
                (String "010" (String "010" "Requirements:"
                 ++ String "010" "- Professional but warm tone"
                 ++ String "010" "- Clear explanation of the program"
                 ++ String "010" "- Specific call to action"
                 ++ String "010" "- Contact information placeholder"))
                (String "010" "- ") _ (String "010" EmptyString)).
      simpl. reflexivity. }
  split.
  - intros outreachType [->| ->]; eexists;
      (split; [apply generateOutreachContent_requests|]); apply (Hkind "mail").
  - intros kind Hne. eexists. split; [apply generateOutreachContent_requests|].
    destruct (Hkind kind) as [Hrequest Hformat]. split; [exact Hrequest|].
    unfold format_line in Hformat. apply String.eqb_neq in Hne. now rewrite Hne in Hformat.
Qed.

End Outreach.

(** ** Batches *)

Section BatchFacts.

Local Open Scope nat_scope.

Variable this : AIService.t.
Variables (systemPrompt : string) (options : Options.t).

Local Abbreviation claude_requests batch :=
  (map (fun prompt => claude_request prompt systemPrompt options) batch).
Local Abbreviation claude_value started :=
  (value_or_null (snd (snd started))).

(** [getDualAnalysis] is its two steps, one after the other. *)
Lemma getDualAnalysis_in_two_steps (prompt : string) (t : Trace) :
  getDualAnalysis this prompt systemPrompt options t =
  bind (dispatch this systemPrompt options prompt)
       (conclude this options prompt) t.
Proof.
  unfold getDualAnalysis, dispatch, conclude, bind at 1 3.
  destruct (allSettled _ _ t) as [[[a b]|error] t']; reflexivity.
Qed.











Lemma batch_size_positive (batchSize : option nat) : 0 < batch_size batchSize.
Proof. destruct batchSize as [[|n]|]; simpl; lia. Qed.






Lemma conclude_in_single_done (order : list nat) (prompt : string)
    (settled : Outcome OpenAIResult.t * Outcome ClaudeResult.t) (results : Results.t)
    (t : Trace) :
  conclude_in this options order [(prompt, settled)] [(0, results)] t
  = (Fulfilled [(0, results)], t).
Proof.
  induction order as [|k later IH]; [reflexivity|].
  destruct k as [|[|k]]; simpl; exact IH.
Qed.

Lemma conclude_in_single (order : list nat) (prompt : string)
    (settled : Outcome OpenAIResult.t * Outcome ClaudeResult.t) (t : Trace) :
  conclude_in this options (order ++ [0]) [(prompt, settled)] [] t
  = bind (conclude this options prompt settled) (fun results => ret [(0, results)]) t.
Proof.
  induction order as [|k later IH]; [reflexivity|].
  destruct k as [|[|k]]; simpl; try exact IH.
  unfold bind. destruct (conclude this options prompt settled t) as [[results|error] t'];
    [apply conclude_in_single_done|reflexivity].
Qed.

(** X20.  A single prompt in [batchProcess] is one call of
    [getDualAnalysis]: the same requests and log entries, its result as the
    only element, and no delay. *)
Theorem batchProcess_single_prompt (orders : nat -> list nat) (prompt : string)
    (batchSize : option nat) (bt : BatchTrace) :
  batchProcess this systemPrompt options orders [prompt] batchSize bt =
  let (outcome, t') := getDualAnalysis this prompt systemPrompt options (calls bt) in
  (match outcome with
   | Fulfilled results => Fulfilled [results]
   | Rejected error => Rejected error
   end, mkBatchTrace t' (timers bt)).
Proof.
  unfold batchProcess.
  pose proof (batch_size_positive batchSize) as Hb.
  destruct (batch_size batchSize) as [|b]; [lia|]. clear Hb.
  rewrite getDualAnalysis_in_two_steps.
  simpl. unfold slice. simpl. rewrite firstn_nil.
  unfold all_analyses. simpl. unfold bind, ret.
  destruct (dispatch this systemPrompt options prompt (calls bt)) as [[settled|error] t1];
    [|reflexivity].
  rewrite conclude_in_single. unfold bind, ret.
  destruct (conclude this options prompt settled t1) as [[results|error] t2]; reflexivity.
Qed.

End BatchFacts.

(** * The further properties at concrete runs *)

Import Samples.

(** X2 without any option, both backends up: nothing is selected and the
    OpenAI client sees the generation request only. *)
Lemma getDualAnalysis_without_selectBest_witness :
  fst (getDualAnalysis (both_up verdict_A) "p" "s" Options.empty empty_trace)
  = Fulfilled {| Results.openai := Some gpt_result;
                 Results.claude := Some claude_result;
                 Results.errors := {| Errors.openai := None; Errors.claude := None |};
                 Results.selected := None |}
  /\ openai_requests
       (snd (getDualAnalysis (both_up verdict_A) "p" "s" Options.empty empty_trace))
     = [openai_request (both_up verdict_A) "p" "s" Options.empty].
Proof.
  exact (getDualAnalysis_without_selectBest (both_up verdict_A) "p" "s" Options.empty
           empty_trace eq_refl).
Defined.

(** X4 with a rejected API key on the OpenAI side. *)
Lemma backend_failures_are_logged_witness :
  In (LogError "OpenAI API error:" "401 Incorrect API key provided")
     (logged (snd (getDualAnalysis openai_down "p" "s" select_best empty_trace))).
Proof.
  destruct (backend_failures_are_logged openai_down "p" "s" select_best empty_trace)
    as (results & Hres & Hopenai & _).
  apply Hopenai. vm_compute in Hres. injection Hres as <-. reflexivity.
Defined.

(** X5 with a completion that has no choices, then with a message that has
    no content block. *)
Lemma empty_replies_are_failures_witness :
  (exists results,
      fst (getDualAnalysis openai_empty "p" "s" select_best empty_trace) = Fulfilled results
      /\ Results.openai results = None
      /\ Errors.openai (Results.errors results)
         = Some "Cannot read properties of undefined (reading 'message')"
      /\ Results.selected results = None)
  /\ (exists results,
      fst (getDualAnalysis claude_empty "p" "s" select_best empty_trace) = Fulfilled results
      /\ Results.claude results = None
      /\ Errors.claude (Results.errors results)
         = Some "Cannot read properties of undefined (reading 'text')"
      /\ Results.selected results = None).
Proof.
  split.
  - apply (proj1 (empty_replies_are_failures openai_empty "p" "s" select_best empty_trace)
             no_choices); reflexivity.
  - apply (proj2 (empty_replies_are_failures claude_empty "p" "s" select_best empty_trace)
             no_blocks); reflexivity.
Defined.


(** X7 with a model and a temperature asked for: the evaluation request
    has neither. *)
Lemma judge_request_ignores_options_witness :
  exists generation evaluation,
    openai_requests
      (snd (getDualAnalysis (both_up verdict_A) "p" "s" warm_other_model empty_trace))
    = [generation; evaluation]
    /\ request_field evaluation "temperature" = Some (JNum (3 # 10))
    /\ request_field evaluation "max_tokens" = Some (JNum 2000)
    /\ request_field evaluation "model" = Some (JStr "gpt-4-turbo-preview").
Proof.
  destruct (judge_request_ignores_options (both_up verdict_A) "p" "s" warm_other_model
              empty_trace) as (generation & later & Hreq & Hlater).
  assert (Hlength : List.length (generation :: later) = 2%nat).
  { apply (f_equal (@List.length JSValue)) in Hreq. vm_compute in Hreq.
    simpl. now rewrite Hreq. }
  destruct later as [|evaluation [|]]; try discriminate.
  exists generation, evaluation. split; [exact Hreq|].
  apply Hlater. now left.
Defined.

(** X8 with criteria of the caller's. *)
Lemma selectionPrompt_embeds_witness :
  embeds (selectionPrompt gpt_result claude_result "Summarise the chart"
            (Some "clinical accuracy"))
         "Evaluation Criteria: clinical accuracy".
Proof.
  apply (proj1 (proj2 (selectionPrompt_embeds gpt_result claude_result
                         "Summarise the chart")) "clinical accuracy").
  discriminate.
Defined.

(** X9 where the judge replies with the JSON value [null]. *)
Lemma fallback_exactly_when_witness :
  fst (selectBestResponse (judge_replying (Some "null")) gpt_result claude_result
         "p" None empty_trace)
  = Fulfilled (default_selection claude_result).
Proof.
  destruct (fallback_exactly_when (judge_replying (Some "null")) gpt_result claude_result
              "p" None empty_trace) as (outcome & Hres & Hiff & _).
  rewrite Hres. f_equal. apply Hiff. right.
  eexists. split; [reflexivity | vm_compute; reflexivity].
Defined.

(** X11 on two examples with quotes, a backslash and a line break in
    them. *)
Lemma fine_tuning_data_round_trip_witness :
  exists data,
    generateFineTuningData no_number
      (map (fun text => {| Example.prompt := JStr (fst text);
                           Example.completion := JStr (snd text) |}) tricky_texts)
      empty_trace
    = (Fulfilled data, empty_trace)
    /\ List.length (split_on "010" data) = 2%nat
    /\ map JSON.parse (split_on "010" data)
       = map (fun text => Some (training_record
                                  {| Example.prompt := JStr (fst text);
                                     Example.completion := JStr (snd text) |}))
             tricky_texts.
Proof.
  destruct (proj2 (fine_tuning_data_round_trip no_number tricky_texts empty_trace))
    as (data & Hdata & Hlines & Hparsed); [discriminate|].
  exists data. split; [exact Hdata|]. split.
  - rewrite Hlines. reflexivity.
  - rewrite Hparsed, map_map. reflexivity.
Defined.


(** X13 for [analyzePatientForCarePlans], both backends up. *)
Lemma analysis_methods_criteria_witness :
  exists evaluationPrompt,
    last (openai_requests
            (snd (analyzePatientForCarePlans (both_up verdict_A) no_number patient
                    care_plans empty_trace))) JUndefined
    = openai_request (both_up verdict_A) evaluationPrompt evaluator_instruction
        evaluation_options
    /\ embeds evaluationPrompt
              "Evaluation Criteria: clinical accuracy, completeness, actionability".
Proof.
  eapply (proj1 (analysis_methods_criteria (both_up verdict_A) no_number empty_trace)
            patient care_plans); [vm_compute; reflexivity | reflexivity].
Defined.


(** X15 for an [email]. *)
Lemma outreach_type_format_witness :
  exists prompt,
    anthropic_requests
      (snd (generateOutreachContent (both_up verdict_A) patient_info diabetes_plan
              (Some "email") empty_trace))
    = [claude_request prompt generateOutreachContent_systemPrompt
         (select_best_by
            (Some "empathy, clarity, professionalism, call-to-action effectiveness"))]
    /\ embeds prompt "Generate a email for this patient:"
    /\ embeds prompt (String "010" "- Email format" ++ String "010" EmptyString).
Proof.
  apply (proj2 (outreach_type_format (both_up verdict_A) patient_info diabetes_plan
                  empty_trace) "email").
  discriminate.
Defined.

